(** * TwoBody: orbital elements ([twobody/elements.py])

    A shallow embedding of the element classes of [twobody/elements.py]:
    the metaclass [ElementsMeta], the base class [OrbitalElements] and the
    two variants [KeplerElements] and [TwoBodyKeplerElements].

    Conventions of the embedding.
    - A Python instance is its class together with its [__dict__], a finite
      map from attribute names to values.  Attribute reads and writes go
      through the read-only properties that [ElementsMeta] synthesises from
      the class attribute [names].
    - An astropy [Quantity] is represented by its dimension and its exact
      magnitude, a rational, in the unit that [KeplerElements.default_units]
      has for that dimension (au, day, Msun, degree).  astropy converts units
      when it compares or adds quantities, so the control flow of the module
      depends on the physical quantity only.  Python floats are idealised as
      the rationals they denote; rounding is not modelled.
    - The decorator [u.quantity_input] rejects arguments of the wrong
      dimension before the body runs.  Constructor arguments are therefore
      typed: a keyword that may be [None] is an [option].
    - A call either returns, [Ok], or raises an exception, [Raise]. *)

From Stdlib Require Import ZArith QArith Qround Qabs String Ascii List Lia Lqa.
From stdpp Require Import base gmap strings pretty.

Open Scope string_scope.

(** ** Exceptions and results *)

Inductive exn : Type :=
| ValueError (msg : string)
| AttributeError (msg : string)
| TypeError (msg : string)
| UnitsError (msg : string).

Inductive result (A : Type) : Type :=
| Ok (x : A)
| Raise (e : exn).
Arguments Ok {A} x.
Arguments Raise {A} e.

#[global] Instance result_ret : MRet result := fun A x => Ok x.
#[global] Instance result_bind : MBind result := fun A B k m =>
  match m with
  | Ok x => k x
  | Raise e => Raise e
  end.

Definition is_ok {A} (r : result A) : bool :=
  match r with Ok _ => true | Raise _ => false end.

(** ** Values *)

Inductive Dim : Type := Length | Duration | Mass | AngleDim | Dimensionless.

(** [astropy.time.Time]: the named epoch ['J2000'], a number read with a
    format and a scale, as in [Time(t0, format='mjd', scale='tcb')]. *)
Inductive Time : Type :=
| TimeNamed (name : string)
| TimeNum (val : Q) (format scale : string).

(** Modelled from the spec: [UnitSystem] of [twobody/units.py], which is
    not part of the sources at hand.  The spec describes it as an ordered
    collection of physical units (length, time, mass, angle, speed). *)
Record UnitSystem : Type := mkUnitSystem { us_units : list string }.

Inductive Value : Type :=
| VQuantity (d : Dim) (q : Q)
| VTime (t : Time)
| VUnits (us : UnitSystem).

(** Modelled from the spec: [UnitSystem.decompose] re-expresses a
    dimensioned value in the base units of the system.  It changes the unit
    a quantity is written in and not the quantity; on magnitudes kept in the
    default unit of their dimension it leaves the value as it is. *)
Definition decompose (us : UnitSystem) (v : Value) : Value := v.

(** ** Classes, instances and attribute access *)

Inductive cls : Type :=
| OrbitalElements
| KeplerElements
| TwoBodyKeplerElements.

Definition cls_name (c : cls) : string :=
  match c with
  | OrbitalElements => "OrbitalElements"
  | KeplerElements => "KeplerElements"
  | TwoBodyKeplerElements => "TwoBodyKeplerElements"
  end.

(** The class attribute [names] of each class body. *)
Definition names (c : cls) : list string :=
  match c with
  | OrbitalElements => []
  | KeplerElements => ["P"; "a"; "e"; "omega"; "i"; "Omega"; "M0"]
  | TwoBodyKeplerElements =>
      ["P"; "a"; "e"; "m1"; "m2"; "omega"; "i"; "Omega"; "M0"]
  end.

(** Base classes, nearest first (the method resolution order without the
    class itself). *)
Definition bases (c : cls) : list cls :=
  match c with
  | OrbitalElements => []
  | KeplerElements => [OrbitalElements]
  | TwoBodyKeplerElements => [KeplerElements; OrbitalElements]
  end.

(** [KeplerElements.default_units]; [OrbitalElements] defines none. *)
Definition default_units (c : cls) : option UnitSystem :=
  match c with
  | OrbitalElements => None
  | KeplerElements | TwoBodyKeplerElements =>
      Some (mkUnitSystem ["au"; "d"; "solMass"; "deg"; "km / s"])
  end.

Record object : Type := mkObject {
  ob_class : cls;
  ob_dict : gmap string Value
}.

(** [object.__new__]: a fresh instance has an empty [__dict__]. *)
Definition new_object (c : cls) : object := mkObject c ∅.

Definition in_names (n : string) (l : list string) : bool :=
  existsb (String.eqb n) l.

(** [ElementsMeta.__new__] puts [property(getter)] in the class body for
    every entry of [names]; a class also inherits the properties of its
    bases. *)
Definition has_property (c : cls) (n : string) : bool :=
  existsb (fun k => in_names n (names k)) (c :: bases c).

Definition no_attribute (o : object) (n : string) : exn :=
  AttributeError
    ("'" ++ cls_name (ob_class o) ++ "' object has no attribute '" ++ n ++ "'").

(** An attribute that is not a property is read from the instance
    [__dict__]. *)
Definition dict_get (o : object) (n : string) : result Value :=
  match ob_dict o !! n with
  | Some v => Ok v
  | None => Raise (no_attribute o n)
  end.

(** The [getter] closure of [readonly_prop_factory]:
    [self.units.decompose(getattr(self, '_' + attr_name))]. *)
Definition getter (attr_name : string) (self : object) : result Value :=
  us ← dict_get self "units";
  match us with
  | VUnits us =>
      v ← dict_get self ("_" ++ attr_name);
      Ok (decompose us v)
  | _ => Raise (no_attribute self "decompose")
  end.

(** [getattr(self, n)] *)
Definition getattr (self : object) (n : string) : result Value :=
  if has_property (ob_class self) n then getter n self else dict_get self n.

(** [setattr(self, n, v)]: a property without a setter refuses the
    assignment. *)
Definition setattr (self : object) (n : string) (v : Value) : result object :=
  if has_property (ob_class self) n
  then Raise (AttributeError "can't set attribute")
  else Ok (mkObject (ob_class self) (<[n := v]> (ob_dict self))).

(** [hasattr(self, n)] for a name that is not a class attribute. *)
Definition hasattr (self : object) (n : string) : bool :=
  bool_decide (is_Some (ob_dict self !! n)).

(** ** Numbers, angles and formatting *)

Definition Qlt_bool (x y : Q) : bool := negb (Qle_bool y x).

(** [Angle.wrap_at(wrap_angle)] of astropy, in degrees: the angle is moved
    by whole turns into [wrap_angle - 360, wrap_angle). *)
Definition wrap_at (wrap_angle x : Q) : Q :=
  let wrap_angle_floor := (wrap_angle - 360)%Q in
  let wraps := Qfloor ((x - wrap_angle_floor) / 360) in
  (x - inject_Z wraps * 360)%Q.

(** Rounding of a non-negative rational to the nearest integer, ties to
    even, as Python's float formatting does. *)
Definition round_half_even (q : Q) : Z :=
  let fl := Qfloor q in
  match (2 * (q - inject_Z fl) ?= 1)%Q with
  | Lt => fl
  | Gt => (fl + 1)%Z
  | Eq => if Z.even fl then fl else (fl + 1)%Z
  end.

Definition pad3 (n : Z) : string :=
  if (n <? 10)%Z then "00" ++ pretty n
  else if (n <? 100)%Z then "0" ++ pretty n
  else pretty n.

(** ['{:.3f}'.format(x)] for a number [x]. *)
Definition format_3f (q : Q) : string :=
  let n := round_half_even (Qabs q * 1000) in
  (if Qlt_bool q 0 then "-" else "")
    ++ pretty (n / 1000)%Z ++ "." ++ pad3 (n mod 1000)%Z.

(** ['{:.3f}'.format(i.to(u.degree))]: astropy formats the value with the
    specifier and appends the unit. *)
Definition format_3f_deg (i : Q) : string := format_3f i ++ " deg".

(** ** Constructor arguments *)

(** A keyword argument with a default that is not [None]: left out by the
    caller, or passed. *)
Inductive keyword (A : Type) : Type :=
| Omitted
| Passed (v : A).
Arguments Omitted {A}.
Arguments Passed {A} v.

Definition bind_keyword {A} (dflt : A) (k : keyword A) : A :=
  match k with
  | Omitted => dflt
  | Passed v => v
  end.

(** [t0]: a [Time] instance or a number. *)
Inductive t0_arg : Type :=
| T0Time (t : Time)
| T0Num (x : Q).

(** [units]: a [UnitSystem] instance or an iterable of units. *)
Inductive units_arg : Type :=
| UnitsObj (us : UnitSystem)
| UnitsIter (l : list string).

(** The keywords of [KeplerElements.__init__].  A field of type [option] is
    a keyword whose default is [None]; leaving it out and passing [None] are
    the same call.  [e] has the default [0] and is not checked by
    [quantity_input], so it may be left out, be [None], or be a number. *)
Record KeplerKwargs : Type := mkKepler {
  kw_P : option Q;
  kw_a : option Q;
  kw_e : keyword (option Q);
  kw_omega : option Q;
  kw_i : option Q;
  kw_Omega : option Q;
  kw_M0 : option Q;
  kw_t0 : option t0_arg;
  kw_units : option units_arg
}.

(** ** [OrbitalElements.__init__] *)

(** The loop [for name in self.names: if not hasattr(self, '_'+name)]. *)
Fixpoint check_names (self : object) (l : list string) : result unit :=
  match l with
  | [] => Ok tt
  | name :: l' =>
      if hasattr self ("_" ++ name)
      then check_names self l'
      else Raise (AttributeError "Invalid class definition!")
  end.

Definition OrbitalElements_init (self : object) (units : option units_arg)
  : result object :=
  units ← match units with
          | None =>
              match default_units (ob_class self) with
              | Some us => Ok us
              | None => Raise (no_attribute self "default_units")
              end
          | Some (UnitsObj us) => Ok us
          | Some (UnitsIter l) => Ok (mkUnitSystem l)
          end;
  self ← setattr self "units" (VUnits units);
  check_names self (names (ob_class self));;
  Ok self.

(** ** [KeplerElements.__init__] *)

(** One round of [if eval(name) is None: raise ValueError(...)]. *)
Definition required {A} (name : string) (v : option A) : result A :=
  match v with
  | Some x => Ok x
  | None => Raise (ValueError ("You must specify " ++ name ++ "."))
  end.

(** The statements of [__init__] before the call of [super().__init__]:
    defaults, required elements, value validation, and the assignments of
    the attributes. *)
Definition KeplerElements_body (self : object) (kw : KeplerKwargs)
  : result object :=
  let e := bind_keyword (Some 0%Q) (kw_e kw) in
  let M0 := match kw_M0 kw with None => 0%Q | Some M0 => M0 end in
  let t0 := match kw_t0 kw with
            | None => TimeNamed "J2000"
            | Some (T0Time t) => t
            | Some (T0Num x) => TimeNum x "mjd" "tcb"
            end in
  P ← required "P" (kw_P kw);
  omega ← required "omega" (kw_omega kw);
  i ← required "i" (kw_i kw);
  Omega ← required "Omega" (kw_Omega kw);
  if Qlt_bool P 0 then Raise (ValueError "Period `P` must be positive.") else
  if match kw_a kw with Some a => Qlt_bool a 0 | None => false end
  then Raise (ValueError "Semi-major axis `a` must be positive.") else
  e ← match e with
      | Some e => Ok e
      | None => Raise (TypeError
          "'<' not supported between instances of 'NoneType' and 'int'")
      end;
  if Qlt_bool e 0 || Qle_bool 1 e
  then Raise (ValueError "Eccentricity `e` must be: 0 <= e < 1") else
  if Qlt_bool i 0 || Qlt_bool 180 i
  then Raise (ValueError
    ("Inclination `i` must be between 0º and 180º, you passed in i="
       ++ format_3f_deg i)) else
  self ← setattr self "_a" match kw_a kw with
                           | Some a => VQuantity Length a
                           | None => VQuantity Dimensionless 1
                           end;
  self ← setattr self "_P" (VQuantity Duration P);
  self ← setattr self "_e" (VQuantity Dimensionless e);
  self ← setattr self "_omega" (VQuantity AngleDim (wrap_at 360 omega));
  self ← setattr self "_i" (VQuantity AngleDim i);
  self ← setattr self "_Omega" (VQuantity AngleDim (wrap_at 360 Omega));
  self ← setattr self "_M0" (VQuantity AngleDim M0);
  setattr self "t0" (VTime t0).

Definition KeplerElements_init (self : object) (kw : KeplerKwargs)
  : result object :=
  self ← KeplerElements_body self kw;
  OrbitalElements_init self (kw_units kw).

(** The call [KeplerElements(...)] with keywords [kw]. *)
Definition KeplerElements_new (kw : KeplerKwargs) : result object :=
  KeplerElements_init (new_object KeplerElements) kw.

(** ** [TwoBodyKeplerElements] *)

Record TwoBodyKwargs : Type := mkTwoBody {
  tb_a : option Q;
  tb_P : option Q;
  tb_m1 : option Q;
  tb_m2 : option Q;
  tb_e : keyword (option Q);
  tb_omega : option Q;
  tb_i : option Q;
  tb_Omega : option Q;
  tb_M0 : option Q;
  tb_t0 : option t0_arg;
  tb_units : option units_arg
}.

#[global] Instance Dim_eq_dec : EqDecision Dim.
Proof. solve_decision. Defined.

(** Reading a stored value as a quantity of dimension [d]. *)
Definition quantity_of (d : Dim) (v : Value) : result Q :=
  match v with
  | VQuantity d' q =>
      if decide (d = d') then Ok q
      else Raise (UnitsError "quantity of another dimension")
  | _ => Raise (TypeError "not a quantity")
  end.

(** Arguments of [get_component]: the Python values whose [str] is
    modelled. *)
Inductive PyVal : Type :=
| PyInt (n : Z)
| PyStr (s : string)
| PyBool (b : bool)
| PyNone.

(** [str(num)] *)
Definition py_str (v : PyVal) : string :=
  match v with
  | PyInt n => pretty n
  | PyStr s => s
  | PyBool true => "True"
  | PyBool false => "False"
  | PyNone => "None"
  end.

Section TwoBody.

(** [a_m_to_P] and [P_m_to_a] of [twobody/transforms.py], followed by the
    conversions [.to(u.day)] and [.to(u.au)].  The module is not part of
    the sources at hand: the two functions are parameters, and may raise.
    [a_m_to_P] receives [a] as the caller gave it, possibly [None]. *)
Variable a_m_to_P : option Q -> Q -> result Q.
Variable P_m_to_a : Q -> Q -> result Q.

(** The keywords that [TwoBodyKeplerElements.__init__] hands to
    [super().__init__], with [P] and [a] resolved. *)
Definition super_kwargs (kw : TwoBodyKwargs) (P a : Q) : KeplerKwargs :=
  {| kw_a := Some a;
     kw_P := Some P;
     kw_e := Passed (bind_keyword None (tb_e kw));
     kw_omega := tb_omega kw;
     kw_i := tb_i kw;
     kw_Omega := tb_omega kw;
     kw_M0 := tb_M0 kw;
     kw_t0 := tb_t0 kw;
     kw_units := tb_units kw |}.

Definition TwoBodyKeplerElements_init (self : object) (kw : TwoBodyKwargs)
  : result object :=
  match tb_m1 kw, tb_m2 kw with
  | Some m1, Some m2 =>
      P ← match tb_P kw with
          | None => a_m_to_P (tb_a kw) (m1 + m2)%Q
          | Some P => Ok P
          end;
      a ← match tb_a kw with
          | None => P_m_to_a P (m1 + m2)%Q
          | Some a => Ok a
          end;
      self ← KeplerElements_init self (super_kwargs kw P a);
      self ← setattr self "m1" (VQuantity Mass m1);
      self ← setattr self "m2" (VQuantity Mass m2);
      m1' ← getattr self "m1" ≫= quantity_of Mass;
      m2' ← getattr self "m2" ≫= quantity_of Mass;
      setattr self "m_tot" (VQuantity Mass (m1' + m2')%Q)
  | _, _ => Raise (ValueError "You must specify m1 and m2.")
  end.

(** The call [TwoBodyKeplerElements(...)] with keywords [kw]. *)
Definition TwoBodyKeplerElements_new (kw : TwoBodyKwargs) : result object :=
  TwoBodyKeplerElements_init (new_object TwoBodyKeplerElements) kw.

End TwoBody.

(** [np.pi*u.radian], half a turn, in degrees. *)
Definition pi_radian : Q := 180.

(** [TwoBodyKeplerElements.get_component].  The products and quotients of
    quantities are taken on magnitudes; each operand is read at the
    dimension that [quantity_input] demands of the result. *)
Definition get_component (self : object) (num : PyVal) : result object :=
  let num := py_str num in
  '(a, omega) ←
    (if String.eqb num "1" then
       m2 ← getattr self "m2" ≫= quantity_of Mass;
       m_tot ← getattr self "m_tot" ≫= quantity_of Mass;
       a ← getattr self "a" ≫= quantity_of Length;
       omega ← getattr self "omega" ≫= quantity_of AngleDim;
       Ok ((m2 / m_tot * a)%Q, omega)
     else if String.eqb num "2" then
       m1 ← getattr self "m1" ≫= quantity_of Mass;
       m_tot ← getattr self "m_tot" ≫= quantity_of Mass;
       a ← getattr self "a" ≫= quantity_of Length;
       omega ← getattr self "omega" ≫= quantity_of AngleDim;
       Ok ((m1 / m_tot * a)%Q, (omega + pi_radian)%Q)
     else
       Raise (ValueError
         ("Invalid input '" ++ num ++ "' - must be '1' or '2'")));
  P ← getattr self "P" ≫= quantity_of Duration;
  e ← getattr self "e" ≫= quantity_of Dimensionless;
  i ← getattr self "i" ≫= quantity_of AngleDim;
  Omega ← getattr self "Omega" ≫= quantity_of AngleDim;
  M0 ← getattr self "M0" ≫= quantity_of AngleDim;
  t0 ← getattr self "t0" ≫= (fun v => match v with
                             | VTime t => Ok (T0Time t)
                             | VQuantity _ x => Ok (T0Num x)
                             | VUnits _ => Raise (TypeError "not a time")
                             end);
  KeplerElements_new
    {| kw_a := Some a; kw_P := Some P; kw_e := Passed (Some e);
       kw_omega := Some omega; kw_i := Some i; kw_Omega := Some Omega;
       kw_M0 := Some M0; kw_t0 := Some t0; kw_units := None |}.

(** The properties [primary] and [secondary]. *)
Definition primary (self : object) : result object :=
  get_component self (PyStr "1").
Definition secondary (self : object) : result object :=
  get_component self (PyStr "2").

(** * Properties *)

(** ** Comparisons *)

Lemma Qlt_bool_iff (x y : Q) : Qlt_bool x y = true <-> (x < y)%Q.
Proof.
  unfold Qlt_bool. rewrite negb_true_iff, <- not_true_iff_false, Qle_bool_iff.
  split; [apply Qnot_le_lt | apply Qlt_not_le].
Qed.

Lemma Qlt_bool_false (x y : Q) : Qlt_bool x y = false <-> (y <= x)%Q.
Proof.
  unfold Qlt_bool. rewrite negb_false_iff. apply Qle_bool_iff.
Qed.

Lemma Qle_bool_false (x y : Q) : Qle_bool x y = false <-> (y < x)%Q.
Proof.
  rewrite <- not_true_iff_false, Qle_bool_iff.
  split; [apply Qnot_le_lt | apply Qlt_not_le].
Qed.

(** ** Angle wrapping *)

Lemma wrap_at_360_range (x : Q) :
  (0 <= wrap_at 360 x)%Q /\ (wrap_at 360 x < 360)%Q.
Proof.
  unfold wrap_at.
  assert (E : ((x - (360 - 360)) / 360 == x / 360)%Q) by (field; discriminate).
  rewrite E. clear E.
  pose proof (Qfloor_le (x / 360)) as Hlo.
  pose proof (Qlt_floor (x / 360)) as Hhi.
  set (k := Qfloor (x / 360)) in *.
  replace (inject_Z (k + 1)) with (inject_Z k + 1)%Q in Hhi
    by (rewrite inject_Z_plus; reflexivity).
  assert (Hx : (x == x / 360 * 360)%Q) by (field; discriminate).
  split.
  - apply (Qmult_le_compat_r _ _ 360) in Hlo; [| discriminate].
    rewrite <- Hx in Hlo. lra.
  - apply (Qmult_lt_compat_r _ _ 360) in Hhi; [| reflexivity].
    rewrite <- Hx in Hhi. lra.
Qed.

(** The wrapped angle differs from the input by whole turns. *)
Lemma wrap_at_360_turns (x : Q) :
  exists k : Z, (wrap_at 360 x == x - inject_Z k * 360)%Q.
Proof. unfold wrap_at. eexists. reflexivity. Qed.

(** ** Attribute access *)

Lemma private_not_property (c : cls) (n : string) :
  has_property c (String "_" n) = false.
Proof. destruct c; reflexivity. Qed.

Lemma setattr_private (self : object) (n : string) (v : Value) :
  setattr self (String "_" n) v
  = Ok (mkObject (ob_class self) (<[String "_" n := v]> (ob_dict self))).
Proof. unfold setattr. rewrite private_not_property. reflexivity. Qed.

Lemma setattr_plain (self : object) (n : string) (v : Value) :
  has_property (ob_class self) n = false ->
  setattr self n v = Ok (mkObject (ob_class self) (<[n := v]> (ob_dict self))).
Proof. unfold setattr. intros ->. reflexivity. Qed.

Lemma hasattr_true (self : object) (n : string) :
  hasattr self n = true <-> is_Some (ob_dict self !! n).
Proof. unfold hasattr. apply bool_decide_eq_true. Qed.

Lemma hasattr_false (self : object) (n : string) :
  hasattr self n = false <-> ob_dict self !! n = None.
Proof.
  unfold hasattr. rewrite bool_decide_eq_false, <- eq_None_not_Some. tauto.
Qed.

(** The loop over [names] raises as soon as one backing attribute is
    missing, whichever it is. *)
Lemma check_names_missing (self : object) (l : list string) (n : string) :
  In n l -> hasattr self ("_" ++ n) = false ->
  check_names self l = Raise (AttributeError "Invalid class definition!").
Proof.
  intros Hin Hn. induction l as [| m l IH]; [destruct Hin |].
  simpl. destruct (hasattr self ("_" ++ m)) eqn:Hm; [| reflexivity].
  destruct Hin as [-> | Hin]; [congruence | auto].
Qed.

Lemma check_names_present (self : object) (l : list string) :
  Forall (fun n => is_Some (ob_dict self !! ("_" ++ n))) l ->
  check_names self l = Ok tt.
Proof.
  induction 1 as [| n l Hn _ IH]; [reflexivity |].
  simpl. apply hasattr_true in Hn. rewrite Hn. exact IH.
Qed.

(** ** The body of [KeplerElements.__init__] *)

(** The instance after the assignments of [KeplerElements.__init__]. *)
Definition stored (self : object) (a : option Q) (P e omega i Omega M0 : Q)
  (t0 : Time) : object :=
  mkObject (ob_class self)
    (<["t0" := VTime t0]>
    (<["_M0" := VQuantity AngleDim M0]>
    (<["_Omega" := VQuantity AngleDim (wrap_at 360 Omega)]>
    (<["_i" := VQuantity AngleDim i]>
    (<["_omega" := VQuantity AngleDim (wrap_at 360 omega)]>
    (<["_e" := VQuantity Dimensionless e]>
    (<["_P" := VQuantity Duration P]>
    (<["_a" := match a with
               | Some a => VQuantity Length a
               | None => VQuantity Dimensionless 1
               end]> (ob_dict self))))))))).

Definition M0_of (kw : KeplerKwargs) : Q :=
  match kw_M0 kw with None => 0%Q | Some M0 => M0 end.

Definition t0_of (kw : KeplerKwargs) : Time :=
  match kw_t0 kw with
  | None => TimeNamed "J2000"
  | Some (T0Time t) => t
  | Some (T0Num x) => TimeNum x "mjd" "tcb"
  end.

(** What the checks of [KeplerElements.__init__] let through. *)
Record accepted (kw : KeplerKwargs) (P e omega i Omega : Q) : Prop := {
  acc_P : kw_P kw = Some P;
  acc_omega : kw_omega kw = Some omega;
  acc_i : kw_i kw = Some i;
  acc_Omega : kw_Omega kw = Some Omega;
  acc_e : bind_keyword (Some 0%Q) (kw_e kw) = Some e;
  acc_P_range : (0 <= P)%Q;
  acc_a_range : forall a, kw_a kw = Some a -> (0 <= a)%Q;
  acc_e_range : (0 <= e)%Q /\ (e < 1)%Q;
  acc_i_range : (0 <= i)%Q /\ (i <= 180)%Q
}.

Lemma t0_not_property (c : cls) : has_property c "t0" = false.
Proof. destruct c; reflexivity. Qed.

Lemma KeplerElements_body_ok (self : object) (kw : KeplerKwargs)
  (P e omega i Omega : Q) :
  accepted kw P e omega i Omega ->
  KeplerElements_body self kw
  = Ok (stored self (kw_a kw) P e omega i Omega (M0_of kw) (t0_of kw)).
Proof.
  intros [HP Ho Hi HO He HPr Har [He0 He1] [Hi0 Hi1]].
  unfold KeplerElements_body. rewrite HP, Ho, Hi, HO, He. simpl.
  apply Qlt_bool_false in HPr. rewrite HPr.
  assert (Ha : match kw_a kw with Some a => Qlt_bool a 0 | None => false end
               = false).
  { destruct (kw_a kw) as [a |]; [| reflexivity].
    apply Qlt_bool_false. auto. }
  rewrite Ha.
  apply Qlt_bool_false in He0. apply Qle_bool_false in He1.
  apply Qlt_bool_false in Hi0. apply Qlt_bool_false in Hi1.
  rewrite He0, He1, Hi0, Hi1. simpl.
  repeat (rewrite setattr_private; simpl).
  apply setattr_plain, t0_not_property.
Qed.

Lemma KeplerElements_body_inv (self self' : object) (kw : KeplerKwargs) :
  KeplerElements_body self kw = Ok self' ->
  exists P e omega i Omega,
    accepted kw P e omega i Omega /\
    self' = stored self (kw_a kw) P e omega i Omega (M0_of kw) (t0_of kw).
Proof.
  unfold KeplerElements_body.
  destruct (kw_P kw) as [P |] eqn:HP; [| discriminate].
  destruct (kw_omega kw) as [omega |] eqn:Ho; [| discriminate].
  destruct (kw_i kw) as [i |] eqn:Hi; [| discriminate].
  destruct (kw_Omega kw) as [Omega |] eqn:HO; [| discriminate].
  simpl.
  destruct (Qlt_bool P 0) eqn:HPr; [discriminate |].
  destruct (match kw_a kw with Some a => Qlt_bool a 0 | None => false end)
    eqn:Ha; [discriminate |].
  destruct (bind_keyword (Some 0%Q) (kw_e kw)) as [e |] eqn:He;
    [| discriminate].
  simpl.
  destruct (Qlt_bool e 0) eqn:He0; [discriminate |].
  destruct (Qle_bool 1 e) eqn:He1; [discriminate |].
  destruct (Qlt_bool i 0) eqn:Hi0; [discriminate |].
  destruct (Qlt_bool 180 i) eqn:Hi1; [discriminate |].
  simpl. intros H.
  assert (Hacc : accepted kw P e omega i Omega).
  { constructor; try assumption.
    - by apply Qlt_bool_false.
    - intros a Hk. rewrite Hk in Ha. by apply Qlt_bool_false.
    - split; [by apply Qlt_bool_false | by apply Qle_bool_false].
    - split; by apply Qlt_bool_false. }
  exists P, e, omega, i, Omega. split; [exact Hacc |].
  repeat (rewrite setattr_private in H; simpl in H).
  rewrite setattr_plain in H by apply t0_not_property.
  injection H as <-. reflexivity.
Qed.

(** ** [OrbitalElements.__init__] on the two variants *)

(** The unit system that [OrbitalElements.__init__] selects for a class
    that has [default_units]. *)
Definition units_of (units : option units_arg) : UnitSystem :=
  match units with
  | None => mkUnitSystem ["au"; "d"; "solMass"; "deg"; "km / s"]
  | Some (UnitsObj us) => us
  | Some (UnitsIter l) => mkUnitSystem l
  end.

Lemma units_not_property (c : cls) : has_property c "units" = false.
Proof. destruct c; reflexivity. Qed.

Lemma OrbitalElements_init_Kepler (d : gmap string Value)
  (units : option units_arg) :
  Forall (fun n => is_Some (d !! ("_" ++ n))) (names KeplerElements) ->
  OrbitalElements_init (mkObject KeplerElements d) units
  = Ok (mkObject KeplerElements (<["units" := VUnits (units_of units)]> d)).
Proof.
  intros Hd. unfold OrbitalElements_init.
  assert (E : match units with
              | None =>
                  match default_units (ob_class (mkObject KeplerElements d))
                  with
                  | Some us => Ok us
                  | None =>
                      Raise (no_attribute (mkObject KeplerElements d)
                               "default_units")
                  end
              | Some (UnitsObj us) => Ok us
              | Some (UnitsIter l) => Ok (mkUnitSystem l)
              end = Ok (units_of units)).
  { destruct units as [[us | l] |]; reflexivity. }
  rewrite E. unfold mbind, result_bind, setattr.
  rewrite units_not_property. cbn [ob_class ob_dict].
  rewrite check_names_present; [reflexivity |].
  cbn [ob_dict]. eapply Forall_impl; [exact Hd |].
  intros n [v Hv]. simpl.
  change (String "_" n) with ("_" ++ n).
  destruct (decide ("units" = "_" ++ n)) as [Hn | Hn]; [discriminate Hn |].
  rewrite lookup_insert_ne by exact Hn. eauto.
Qed.

(** For a [TwoBodyKeplerElements] instance without [_m1] the base step
    raises: [names] lists [m1]. *)
Lemma OrbitalElements_init_TwoBody (d : gmap string Value)
  (units : option units_arg) :
  d !! "_m1" = None ->
  OrbitalElements_init (mkObject TwoBodyKeplerElements d) units
  = Raise (AttributeError "Invalid class definition!").
Proof.
  intros Hd. unfold OrbitalElements_init.
  destruct units as [[us | l] |]; cbn [default_units ob_class];
    unfold mbind, result_bind, setattr;
    rewrite units_not_property; cbn [ob_class ob_dict];
    (rewrite (check_names_missing _ _ "m1");
     [reflexivity | simpl; tauto |
      apply hasattr_false; simpl; rewrite lookup_insert_ne by discriminate;
      exact Hd]).
Qed.

(** ** [KeplerElements(...)] *)

Definition constructed (kw : KeplerKwargs) (P e omega i Omega : Q) : object :=
  mkObject KeplerElements
    (<["units" := VUnits (units_of (kw_units kw))]>
       (ob_dict (stored (new_object KeplerElements) (kw_a kw) P e omega i
                   Omega (M0_of kw) (t0_of kw)))).

Lemma stored_names_present (self : object) (a : option Q)
  (P e omega i Omega M0 : Q) (t0 : Time) :
  Forall (fun n => is_Some (ob_dict (stored self a P e omega i Omega M0 t0)
                              !! ("_" ++ n)))
    (names KeplerElements).
Proof.
  unfold stored. simpl.
  repeat constructor; simpl;
    repeat (first [ rewrite lookup_insert_eq; eauto; fail
                  | rewrite lookup_insert_ne by discriminate ]).
Qed.

Lemma KeplerElements_new_ok (kw : KeplerKwargs) (P e omega i Omega : Q) :
  accepted kw P e omega i Omega ->
  KeplerElements_new kw = Ok (constructed kw P e omega i Omega).
Proof.
  intros Hacc. unfold KeplerElements_new, KeplerElements_init.
  rewrite (KeplerElements_body_ok _ _ _ _ _ _ _ Hacc). simpl.
  unfold stored at 1. simpl.
  rewrite OrbitalElements_init_Kepler; [reflexivity |].
  apply (stored_names_present (new_object KeplerElements)).
Qed.

Lemma KeplerElements_new_inv (kw : KeplerKwargs) (o : object) :
  KeplerElements_new kw = Ok o ->
  exists P e omega i Omega,
    accepted kw P e omega i Omega /\ o = constructed kw P e omega i Omega.
Proof.
  unfold KeplerElements_new, KeplerElements_init. intros H.
  destruct (KeplerElements_body (new_object KeplerElements) kw) as [s | x]
    eqn:Hb; [| discriminate].
  apply KeplerElements_body_inv in Hb as (P & e & omega & i & Omega & Hacc & ->).
  exists P, e, omega, i, Omega. split; [exact Hacc |].
  pose proof (KeplerElements_new_ok kw P e omega i Omega Hacc) as Hok.
  unfold KeplerElements_new, KeplerElements_init in Hok.
  rewrite (KeplerElements_body_ok _ _ _ _ _ _ _ Hacc) in Hok.
  simpl in H, Hok. congruence.
Qed.

(** The accessors of a constructed instance. *)
Lemma constructed_getattr (kw : KeplerKwargs) (P e omega i Omega : Q) :
  let o := constructed kw P e omega i Omega in
  getattr o "P" = Ok (VQuantity Duration P) /\
  getattr o "a" = Ok (match kw_a kw with
                      | Some a => VQuantity Length a
                      | None => VQuantity Dimensionless 1
                      end) /\
  getattr o "e" = Ok (VQuantity Dimensionless e) /\
  getattr o "omega" = Ok (VQuantity AngleDim (wrap_at 360 omega)) /\
  getattr o "i" = Ok (VQuantity AngleDim i) /\
  getattr o "Omega" = Ok (VQuantity AngleDim (wrap_at 360 Omega)) /\
  getattr o "M0" = Ok (VQuantity AngleDim (M0_of kw)) /\
  getattr o "t0" = Ok (VTime (t0_of kw)).
Proof.
  intros o. repeat split; reflexivity.
Qed.

(** ** [TwoBodyKeplerElements(...)] *)

Lemma stored_lacks_m1 (self : object) (a : option Q)
  (P e omega i Omega M0 : Q) (t0 : Time) :
  ob_dict self !! "_m1" = None ->
  ob_dict (stored self a P e omega i Omega M0 t0) !! "_m1" = None.
Proof.
  intros H. unfold stored. cbn [ob_dict].
  repeat (rewrite lookup_insert_ne by discriminate). exact H.
Qed.

(** On a [TwoBodyKeplerElements] instance without [_m1], the inherited
    [__init__] raises: in its own checks, or in the base step. *)
Lemma KeplerElements_init_TwoBody (d : gmap string Value)
  (kw : KeplerKwargs) :
  d !! "_m1" = None ->
  KeplerElements_init (mkObject TwoBodyKeplerElements d) kw
  = match KeplerElements_body (mkObject TwoBodyKeplerElements d) kw with
    | Ok _ => Raise (AttributeError "Invalid class definition!")
    | Raise x => Raise x
    end.
Proof.
  intros Hd. unfold KeplerElements_init.
  destruct (KeplerElements_body _ kw) as [s | x] eqn:Hb; [| reflexivity].
  apply KeplerElements_body_inv in Hb as (P & e & omega & i & Omega & _ & ->).
  cbn [mbind result_bind].
  apply OrbitalElements_init_TwoBody.
  apply (stored_lacks_m1 (mkObject TwoBodyKeplerElements d)). exact Hd.
Qed.

Section TwoBodyFacts.

Variable a_m_to_P : option Q -> Q -> result Q.
Variable P_m_to_a : Q -> Q -> result Q.

(** No call of the constructor returns an instance. *)
Lemma TwoBodyKeplerElements_new_raises (kw : TwoBodyKwargs) :
  exists x : exn, TwoBodyKeplerElements_new a_m_to_P P_m_to_a kw = Raise x.
Proof.
  unfold TwoBodyKeplerElements_new, TwoBodyKeplerElements_init.
  destruct (tb_m1 kw) as [m1 |], (tb_m2 kw) as [m2 |]; eauto.
  destruct (match tb_P kw with
            | None => a_m_to_P (tb_a kw) (m1 + m2)%Q
            | Some P => Ok P
            end) as [P | x]; [| eauto].
  cbn [mbind result_bind].
  destruct (match tb_a kw with
            | None => P_m_to_a P (m1 + m2)%Q
            | Some a => Ok a
            end) as [a | x]; [| eauto].
  cbn [mbind result_bind].
  unfold new_object.
  rewrite KeplerElements_init_TwoBody by apply lookup_empty.
  destruct (KeplerElements_body _ _); eauto.
Qed.

(** With both masses given, [P] and [a] resolved and every check of
    [KeplerElements.__init__] passed, the exception is the one of the
    loop over [names]. *)
Lemma TwoBodyKeplerElements_new_invalid_class (kw : TwoBodyKwargs)
  (m1 m2 P a e omega i Omega : Q) :
  tb_m1 kw = Some m1 -> tb_m2 kw = Some m2 ->
  match tb_P kw with
  | None => a_m_to_P (tb_a kw) (m1 + m2)%Q
  | Some P => Ok P
  end = Ok P ->
  match tb_a kw with
  | None => P_m_to_a P (m1 + m2)%Q
  | Some a => Ok a
  end = Ok a ->
  accepted (super_kwargs kw P a) P e omega i Omega ->
  TwoBodyKeplerElements_new a_m_to_P P_m_to_a kw
  = Raise (AttributeError "Invalid class definition!").
Proof.
  intros Hm1 Hm2 HP Ha Hacc.
  unfold TwoBodyKeplerElements_new, TwoBodyKeplerElements_init.
  rewrite Hm1, Hm2, HP. cbn [mbind result_bind]. rewrite Ha.
  cbn [mbind result_bind]. unfold new_object.
  rewrite KeplerElements_init_TwoBody by apply lookup_empty.
  rewrite (KeplerElements_body_ok _ _ _ _ _ _ _ Hacc). reflexivity.
Qed.

(** *** The scenario of the API script

    [TwoBodyKeplerElements(m1=1*u.Msun, m2=2*u.Msun, a=1.5*u.au, e=0.5,
    omega=67*u.deg, i=21.*u.deg, Omega=33*u.deg, M0=53*u.deg,
    t0=59112.1423)] *)
Definition api_scenario : TwoBodyKwargs :=
  {| tb_a := Some 1.5%Q; tb_P := None;
     tb_m1 := Some 1%Q; tb_m2 := Some 2%Q;
     tb_e := Passed (Some 0.5%Q);
     tb_omega := Some 67%Q; tb_i := Some 21%Q; tb_Omega := Some 33%Q;
     tb_M0 := Some 53%Q; tb_t0 := Some (T0Num 59112.1423%Q);
     tb_units := None |}.

(** C1 (the code departs from the claim).  Constructing the two-body
    elements of the scenario m1 = 1 Msun, m2 = 2 Msun, a = 1.5 au, e = 0.5,
    omega = 67 deg, i = 21 deg, Omega = 33 deg, M0 = 53 deg,
    t0 = MJD 59112.1423 does not succeed, whatever period the third-law
    helper returns: a helper that raises propagates, a negative period is
    rejected, and otherwise the loop over [names] raises
    [AttributeError('Invalid class definition!')] because no [_m1] was
    assigned.  No name of [names] becomes readable. *)
Theorem scenario_construction_raises :
  is_ok (TwoBodyKeplerElements_new a_m_to_P P_m_to_a api_scenario) = false /\
  TwoBodyKeplerElements_new a_m_to_P P_m_to_a api_scenario
  = match a_m_to_P (Some 1.5%Q) (1 + 2)%Q with
    | Ok P =>
        if Qlt_bool P 0
        then Raise (ValueError "Period `P` must be positive.")
        else Raise (AttributeError "Invalid class definition!")
    | Raise x => Raise x
    end.
Proof.
  split.
  - destruct (TwoBodyKeplerElements_new_raises api_scenario) as [x ->].
    reflexivity.
  - unfold TwoBodyKeplerElements_new, TwoBodyKeplerElements_init.
    cbn [api_scenario tb_m1 tb_m2 tb_P tb_a].
    destruct (a_m_to_P (Some 1.5%Q) (1 + 2)%Q) as [P | x]; [| reflexivity].
    cbn [mbind result_bind]. unfold new_object.
    rewrite KeplerElements_init_TwoBody by apply lookup_empty.
    unfold KeplerElements_body. cbn.
    destruct (Qlt_bool P 0); reflexivity.
Qed.

(** *** The third-law round trip

    Construct from [a] and the masses, read [P] back, construct from that
    [P] and the same masses, read [a] back.  The other keywords are those
    of [kw]. *)
Definition from_a (kw : TwoBodyKwargs) : TwoBodyKwargs :=
  {| tb_a := tb_a kw; tb_P := None;
     tb_m1 := tb_m1 kw; tb_m2 := tb_m2 kw; tb_e := tb_e kw;
     tb_omega := tb_omega kw; tb_i := tb_i kw; tb_Omega := tb_Omega kw;
     tb_M0 := tb_M0 kw; tb_t0 := tb_t0 kw; tb_units := tb_units kw |}.

Definition from_P (P : Q) (kw : TwoBodyKwargs) : TwoBodyKwargs :=
  {| tb_a := None; tb_P := Some P;
     tb_m1 := tb_m1 kw; tb_m2 := tb_m2 kw; tb_e := tb_e kw;
     tb_omega := tb_omega kw; tb_i := tb_i kw; tb_Omega := tb_Omega kw;
     tb_M0 := tb_M0 kw; tb_t0 := tb_t0 kw; tb_units := tb_units kw |}.

Definition kepler_round_trip (kw : TwoBodyKwargs) : result Q :=
  elem ← TwoBodyKeplerElements_new a_m_to_P P_m_to_a (from_a kw);
  P ← getattr elem "P" ≫= quantity_of Duration;
  elem' ← TwoBodyKeplerElements_new a_m_to_P P_m_to_a (from_P P kw);
  getattr elem' "a" ≫= quantity_of Length.

(** C8 (the code departs from the claim).  The round trip of Kepler's
    third law cannot be run: for all masses and every semi-major axis the
    first construction already raises, so there is no period to read back;
    the round trip ends with that same exception. *)
Theorem kepler_round_trip_raises (kw : TwoBodyKwargs) :
  exists x : exn,
    TwoBodyKeplerElements_new a_m_to_P P_m_to_a (from_a kw) = Raise x /\
    kepler_round_trip kw = Raise x.
Proof.
  destruct (TwoBodyKeplerElements_new_raises (from_a kw)) as [x Hx].
  exists x. split; [exact Hx |].
  unfold kepler_round_trip. rewrite Hx. reflexivity.
Qed.




End TwoBodyFacts.

(** Closed comparisons of rationals, and [accepted] at closed keywords. *)
Ltac q_closed :=
  first [ reflexivity | discriminate | unfold Qle, Qlt; simpl; lia ].

Ltac accept :=
  constructor; simpl; repeat split;
  first [ q_closed | intros ? [= <-]; q_closed | intros ? [=] ].

(** ** The period check *)

(** [KeplerElements(P=0*u.day, omega=67*u.deg, i=21*u.deg, Omega=33*u.deg)] *)
Definition zero_period : KeplerKwargs :=
  {| kw_P := Some 0%Q; kw_a := None; kw_e := Omitted;
     kw_omega := Some 67%Q; kw_i := Some 21%Q; kw_Omega := Some 33%Q;
     kw_M0 := None; kw_t0 := None; kw_units := None |}.

Definition with_P (P : Q) (kw : KeplerKwargs) : KeplerKwargs :=
  {| kw_P := Some P; kw_a := kw_a kw; kw_e := kw_e kw;
     kw_omega := kw_omega kw; kw_i := kw_i kw; kw_Omega := kw_Omega kw;
     kw_M0 := kw_M0 kw; kw_t0 := kw_t0 kw; kw_units := kw_units kw |}.

(** C3 (the code departs from the claim).  The check is [P < 0*u.day]: a
    period of zero is let through, although the message of the check reads
    that the period must be positive.  With P = 0 and the other elements
    valid the constructor returns an instance whose [P] reads 0.
    P = 365 days is accepted, and a negative period is refused. *)
Theorem zero_period_accepted :
  KeplerElements_new zero_period = Ok (constructed zero_period 0 0 67 21 33) /\
  (o ← KeplerElements_new zero_period; getattr o "P")
  = Ok (VQuantity Duration 0) /\
  is_ok (KeplerElements_new (with_P 365 zero_period)) = true /\
  KeplerElements_new (with_P (-1) zero_period)
  = Raise (ValueError "Period `P` must be positive.").
Proof.
  assert (H0 : KeplerElements_new zero_period
               = Ok (constructed zero_period 0 0 67 21 33)).
  { apply KeplerElements_new_ok. accept. }
  split; [exact H0 |]. split; [rewrite H0; reflexivity |].
  split.
  - rewrite (KeplerElements_new_ok _ 365 0 67 21 33); [reflexivity | accept].
  - reflexivity.
Qed.

(** ** The default of [e] *)

(** With [e] left out, a constructed [KeplerElements] reads [e] as 0. *)
Lemma KeplerElements_default_e (kw : KeplerKwargs) (o : object) :
  kw_e kw = Omitted -> KeplerElements_new kw = Ok o ->
  getattr o "e" = Ok (VQuantity Dimensionless 0).
Proof.
  intros He Ho.
  apply KeplerElements_new_inv in Ho as (P & e & omega & i & Omega & Hacc & ->).
  destruct Hacc as [_ _ _ _ He' _ _ _ _]. rewrite He in He'. simpl in He'.
  injection He' as <-. reflexivity.
Qed.

(** [KeplerElements(P=365.25*u.day, omega=67*u.deg, i=21*u.deg,
    Omega=33*u.deg)] *)
Definition kepler_without_e : KeplerKwargs := with_P 365.25 zero_period.

(** [TwoBodyKeplerElements(m1=1*u.Msun, m2=2*u.Msun, a=1.5*u.au,
    P=365.25*u.day, omega=67*u.deg, i=21*u.deg, Omega=33*u.deg)] *)
Definition two_body_without_e : TwoBodyKwargs :=
  {| tb_a := Some 1.5%Q; tb_P := Some 365.25%Q;
     tb_m1 := Some 1%Q; tb_m2 := Some 2%Q;
     tb_e := Omitted;
     tb_omega := Some 67%Q; tb_i := Some 21%Q; tb_Omega := Some 33%Q;
     tb_M0 := None; tb_t0 := None; tb_units := None |}.

(** C4 (the code departs from the claim).  [KeplerElements] has the default
    [e=0]: with [e] left out the instance reads [e] as 0.
    [TwoBodyKeplerElements] has the default [e=None] and passes it on as an
    explicit keyword, which replaces the default of the inherited
    constructor: with [e] left out the comparison [e < 0] raises
    [TypeError], and no eccentricity of 0 is stored. *)
Theorem two_body_e_default_is_None
  (a_m_to_P : option Q -> Q -> result Q) (P_m_to_a : Q -> Q -> result Q) :
  (o ← KeplerElements_new kepler_without_e; getattr o "e")
  = Ok (VQuantity Dimensionless 0) /\
  kw_e (super_kwargs two_body_without_e 365.25 1.5) = Passed None /\
  TwoBodyKeplerElements_new a_m_to_P P_m_to_a two_body_without_e
  = Raise (TypeError
      "'<' not supported between instances of 'NoneType' and 'int'").
Proof.
  split; [| split]; [| reflexivity | reflexivity].
  rewrite (KeplerElements_new_ok _ 365.25 0 67 21 33) by accept.
  reflexivity.
Qed.

(** ** The longitude of the ascending node of a two-body system *)




(** ** Formatting to three decimals *)




(** ** The range checks of [KeplerElements.__init__] *)

(** The required elements are present and the checks of [P] and [a] pass. *)
Record scale_ok (kw : KeplerKwargs) (P omega i Omega : Q) : Prop := {
  sc_P : kw_P kw = Some P;
  sc_omega : kw_omega kw = Some omega;
  sc_i : kw_i kw = Some i;
  sc_Omega : kw_Omega kw = Some Omega;
  sc_P_range : (0 <= P)%Q;
  sc_a_range : forall a, kw_a kw = Some a -> (0 <= a)%Q
}.

Lemma scale_ok_checks (kw : KeplerKwargs) (P omega i Omega : Q) :
  scale_ok kw P omega i Omega ->
  Qlt_bool P 0 = false /\
  match kw_a kw with Some a => Qlt_bool a 0 | None => false end = false.
Proof.
  intros [_ _ _ _ HP Ha]. split; [by apply Qlt_bool_false |].
  destruct (kw_a kw) as [a |]; [| reflexivity].
  apply Qlt_bool_false. auto.
Qed.

Lemma KeplerElements_new_e_rejected (kw : KeplerKwargs)
  (P omega i Omega e : Q) :
  scale_ok kw P omega i Omega ->
  bind_keyword (Some 0%Q) (kw_e kw) = Some e ->
  (e < 0)%Q \/ (1 <= e)%Q ->
  KeplerElements_new kw
  = Raise (ValueError "Eccentricity `e` must be: 0 <= e < 1").
Proof.
  intros Hsc He Hr.
  destruct (scale_ok_checks _ _ _ _ _ Hsc) as [HP Ha].
  destruct Hsc as [EP Eo Ei EO _ _].
  unfold KeplerElements_new, KeplerElements_init, KeplerElements_body.
  rewrite EP, Eo, Ei, EO, He. cbn [required mbind result_bind].
  rewrite HP, Ha. cbn [mbind result_bind].
  assert (Hb : Qlt_bool e 0 || Qle_bool 1 e = true).
  { apply orb_true_iff. destruct Hr as [Hr | Hr];
      [left; by apply Qlt_bool_iff | right; by apply Qle_bool_iff]. }
  rewrite Hb. reflexivity.
Qed.


Lemma scale_ok_accepted (kw : KeplerKwargs) (P omega i Omega e : Q) :
  scale_ok kw P omega i Omega ->
  bind_keyword (Some 0%Q) (kw_e kw) = Some e ->
  (0 <= e)%Q /\ (e < 1)%Q ->
  (0 <= i)%Q /\ (i <= 180)%Q ->
  accepted kw P e omega i Omega.
Proof. intros [] ? ? ?. by constructor. Qed.

(** [KeplerElements(P=365*u.day, e=e, omega=67*u.deg, i=i, Omega=33*u.deg)] *)
Definition year_orbit (e i : Q) : KeplerKwargs :=
  {| kw_P := Some 365%Q; kw_a := None; kw_e := Passed (Some e);
     kw_omega := Some 67%Q; kw_i := Some i; kw_Omega := Some 33%Q;
     kw_M0 := None; kw_t0 := None; kw_units := None |}.

Lemma year_orbit_scale_ok (e i : Q) : scale_ok (year_orbit e i) 365 67 i 33.
Proof. constructor; simpl; first [ q_closed | intros ? [=] ]. Qed.

(** C5.  With the other elements valid, [KeplerElements] is constructed when
    0 <= e < 1 and raises the eccentricity [ValueError] when e < 0 or
    1 <= e. *)
Theorem eccentricity_enforced (kw : KeplerKwargs) (P omega i Omega e : Q) :
  scale_ok kw P omega i Omega ->
  kw_e kw = Passed (Some e) ->
  (0 <= i)%Q /\ (i <= 180)%Q ->
  ((0 <= e)%Q /\ (e < 1)%Q ->
   KeplerElements_new kw = Ok (constructed kw P e omega i Omega)) /\
  ((e < 0)%Q \/ (1 <= e)%Q ->
   KeplerElements_new kw
   = Raise (ValueError "Eccentricity `e` must be: 0 <= e < 1")).
Proof.
  intros Hsc He Hi.
  assert (He' : bind_keyword (Some 0%Q) (kw_e kw) = Some e)
    by (rewrite He; reflexivity).
  split; intros Hr.
  - apply KeplerElements_new_ok. by apply scale_ok_accepted.
  - by apply (KeplerElements_new_e_rejected kw P omega i Omega e).
Qed.

(** e = 0 and e = 0.999 are accepted, e = 1.0 and e = -0.1 are refused. *)
Lemma eccentricity_enforced_witness :
  (KeplerElements_new (year_orbit 0 21)
   = Ok (constructed (year_orbit 0 21) 365 0 67 21 33) /\
   KeplerElements_new (year_orbit 0.999 21)
   = Ok (constructed (year_orbit 0.999 21) 365 0.999 67 21 33)) /\
  (KeplerElements_new (year_orbit 1.0 21)
   = Raise (ValueError "Eccentricity `e` must be: 0 <= e < 1") /\
   KeplerElements_new (year_orbit (-0.1) 21)
   = Raise (ValueError "Eccentricity `e` must be: 0 <= e < 1")).
Proof.
  assert (Hi : (0 <= 21)%Q /\ (21 <= 180)%Q) by (split; q_closed).
  pose proof (fun e => eccentricity_enforced (year_orbit e 21) 365 67 21 33 e
                         (year_orbit_scale_ok e 21) eq_refl Hi) as H.
  split; split.
  - apply (proj1 (H 0%Q)). split; q_closed.
  - apply (proj1 (H 0.999%Q)). split; q_closed.
  - apply (proj2 (H 1.0%Q)). right. q_closed.
  - apply (proj2 (H (-0.1)%Q)). left. q_closed.
Defined.



(** ** Normalisation of the angles *)

(** [KeplerElements(P=365*u.day, omega=370*u.deg, i=21*u.deg,
    Omega=-30*u.deg, M0=400*u.deg)] *)
Definition wrapped_angles : KeplerKwargs :=
  {| kw_P := Some 365%Q; kw_a := None; kw_e := Omitted;
     kw_omega := Some 370%Q; kw_i := Some 21%Q; kw_Omega := Some (-30)%Q;
     kw_M0 := Some 400%Q; kw_t0 := None; kw_units := None |}.

(** C7.  On every constructed [KeplerElements] the accessors [omega] and
    [Omega] return an angle in [0 deg, 360 deg) that differs from the input
    by whole turns, while [_i] and [_M0] hold the input angles as they were
    given ([M0] being 0 deg when left out), and the accessors [i] and [M0]
    return them. *)
Theorem angles_normalised (kw : KeplerKwargs) (o : object) :
  KeplerElements_new kw = Ok o ->
  exists omega Omega i w W,
    kw_omega kw = Some omega /\ kw_Omega kw = Some Omega /\
    kw_i kw = Some i /\
    getattr o "omega" = Ok (VQuantity AngleDim w) /\
    ((0 <= w)%Q /\ (w < 360)%Q) /\
    (exists k : Z, (w == omega - inject_Z k * 360)%Q) /\
    getattr o "Omega" = Ok (VQuantity AngleDim W) /\
    ((0 <= W)%Q /\ (W < 360)%Q) /\
    (exists k : Z, (W == Omega - inject_Z k * 360)%Q) /\
    ob_dict o !! "_i" = Some (VQuantity AngleDim i) /\
    getattr o "i" = Ok (VQuantity AngleDim i) /\
    ob_dict o !! "_M0" = Some (VQuantity AngleDim (M0_of kw)) /\
    getattr o "M0" = Ok (VQuantity AngleDim (M0_of kw)).
Proof.
  intros Ho.
  apply KeplerElements_new_inv in Ho as (P & e & omega & i & Omega & Hacc & ->).
  destruct Hacc as [_ Ho Hi HO _ _ _ _ _].
  exists omega, Omega, i, (wrap_at 360 omega), (wrap_at 360 Omega).
  repeat match goal with
         | |- _ /\ _ => split
         end;
    try assumption; try reflexivity;
    try apply wrap_at_360_range; apply wrap_at_360_turns.
Qed.

(** An input of 370 deg reads 10 deg, -30 deg reads 330 deg; i = 21 deg and
    M0 = 400 deg are kept. *)
Lemma angles_normalised_witness :
  exists o,
    KeplerElements_new wrapped_angles = Ok o /\
    getattr o "omega" = Ok (VQuantity AngleDim 10) /\
    getattr o "Omega" = Ok (VQuantity AngleDim 330) /\
    getattr o "i" = Ok (VQuantity AngleDim 21) /\
    getattr o "M0" = Ok (VQuantity AngleDim 400) /\
    exists w, getattr o "omega" = Ok (VQuantity AngleDim w) /\
              (0 <= w)%Q /\ (w < 360)%Q.
Proof.
  assert (Hn : KeplerElements_new wrapped_angles
               = Ok (constructed wrapped_angles 365 0 370 21 (-30))).
  { apply KeplerElements_new_ok. accept. }
  exists (constructed wrapped_angles 365 0 370 21 (-30)).
  split; [exact Hn |].
  do 4 (split; [vm_compute; reflexivity |]).
  destruct (angles_normalised wrapped_angles _ Hn)
    as (omega & Omega & i & w & W & _ & _ & _ & Hw & Hr & _).
  exists w. split; [exact Hw | exact Hr].
Defined.

(** ** Dispatch in [get_component] *)

(** C10.  [get_component] dispatches on [str(num)]: an argument behaves as
    its string form does, so the integers 1 and 2 select what the strings
    ['1'] and ['2'] select; when the string form is neither, the call raises
    the [ValueError] that quotes it and returns no instance. *)
Theorem get_component_dispatch (self : object) (num : PyVal) :
  get_component self num = get_component self (PyStr (py_str num)) /\
  get_component self (PyInt 1) = get_component self (PyStr "1") /\
  get_component self (PyInt 2) = get_component self (PyStr "2") /\
  (py_str num <> "1" -> py_str num <> "2" ->
   get_component self num
   = Raise (ValueError
       ("Invalid input '" ++ py_str num ++ "' - must be '1' or '2'"))).
Proof.
  split; [reflexivity |]. split; [reflexivity |]. split; [reflexivity |].
  intros H1 H2. unfold get_component.
  apply String.eqb_neq in H1, H2. rewrite H1, H2. reflexivity.
Qed.

(** [get_component(3)], [get_component('primary')] and [get_component(None)]
    raise. *)
Lemma get_component_dispatch_witness :
  get_component (new_object TwoBodyKeplerElements) (PyInt 3)
  = Raise (ValueError "Invalid input '3' - must be '1' or '2'") /\
  get_component (new_object TwoBodyKeplerElements) (PyStr "primary")
  = Raise (ValueError "Invalid input 'primary' - must be '1' or '2'") /\
  get_component (new_object TwoBodyKeplerElements) PyNone
  = Raise (ValueError "Invalid input 'None' - must be '1' or '2'").
Proof.
  split; [| split].
  - apply (proj2 (proj2 (proj2
      (get_component_dispatch (new_object TwoBodyKeplerElements) (PyInt 3)))));
      discriminate.
  - apply (proj2 (proj2 (proj2
      (get_component_dispatch (new_object TwoBodyKeplerElements)
         (PyStr "primary"))))); discriminate.
  - apply (proj2 (proj2 (proj2
      (get_component_dispatch (new_object TwoBodyKeplerElements) PyNone))));
      discriminate.
Defined.

(** The two branches on an instance whose [__dict__] was filled by hand with
    [_m1], [_m2] and [m_tot], which no constructor call assigns: component 1
    takes [m2 / m_tot * a] and keeps [omega], component 2 takes
    [m1 / m_tot * a] and turns [omega] by half a turn; both are plain
    [KeplerElements]. *)
Definition filled_by_hand : object :=
  mkObject TwoBodyKeplerElements
    (<["m_tot" := VQuantity Mass 3]>
    (<["_m2" := VQuantity Mass 2]>
    (<["_m1" := VQuantity Mass 1]>
       (ob_dict (constructed
          {| kw_P := Some 365%Q; kw_a := Some 1.5%Q;
             kw_e := Passed (Some 0.5%Q);
             kw_omega := Some 67%Q; kw_i := Some 21%Q; kw_Omega := Some 67%Q;
             kw_M0 := Some 53%Q; kw_t0 := Some (T0Num 59112.1423%Q);
             kw_units := None |}
          365 0.5 67 21 67))))).

Example get_component_branches :
  (c ← get_component filled_by_hand (PyInt 1);
   a ← getattr c "a"; w ← getattr c "omega"; Ok (a, w, ob_class c))
  = Ok (VQuantity Length (30 # 30), VQuantity AngleDim 67, KeplerElements) /\
  (c ← get_component filled_by_hand (PyStr "2");
   a ← getattr c "a"; w ← getattr c "omega"; Ok (a, w, ob_class c))
  = Ok (VQuantity Length (15 # 30), VQuantity AngleDim 247, KeplerElements).
Proof. split; vm_compute; reflexivity. Qed.

(** * Further properties of the module *)

(** ** [ElementsMeta]: the class bodies and the generated properties *)

(** A member of a class body: the list [names], a property made by
    [readonly_prop_factory], or anything else (a function, a property written
    with a decorator, [default_units]), of which only a label is kept. *)
Inductive Member : Type :=
| MNames (l : list string)
| MProperty (attr_name : string)
| MOther (label : string).

(** [readonly_prop_factory(members, attr_name)] *)
Definition readonly_prop_factory (members : gmap string Member)
  (attr_name : string) : gmap string Member :=
  <[attr_name := MProperty attr_name]> members.

Definition dquote : string := String "034"%char EmptyString.

(** [ElementsMeta.__new__], up to the call of [super().__new__]: the class
    dictionary it hands on.  A [names] that is not a list of strings is taken
    as not iterable. *)
Definition ElementsMeta_new (members : gmap string Member)
  : result (gmap string Member) :=
  match members !! "names" with
  | None =>
      Raise (ValueError
        ("OrbitalElements subclasses must contain a defined class attribute "
           ++ dquote ++ "names" ++ dquote
           ++ " that specified the string names of the elements."))
  | Some (MNames l) => Ok (fold_left readonly_prop_factory l members)
  | Some _ => Raise (TypeError "object is not iterable")
  end.

(** The three class bodies of the module. *)
Definition class_body (c : cls) : gmap string Member :=
  match c with
  | OrbitalElements =>
      <["names" := MNames (names OrbitalElements)]>
      (<["__init__" := MOther "function"]> ∅)
  | KeplerElements =>
      <["default_units" := MOther "UnitSystem"]>
      (<["names" := MNames (names KeplerElements)]>
      (<["__init__" := MOther "function"]>
      (<["K" := MOther "property"]>
      (<["m_f" := MOther "property"]>
      (<["__repr__" := MOther "function"]> ∅)))))
  | TwoBodyKeplerElements =>
      <["names" := MNames (names TwoBodyKeplerElements)]>
      (<["__init__" := MOther "function"]>
      (<["get_component" := MOther "function"]>
      (<["primary" := MOther "property"]>
      (<["secondary" := MOther "property"]>
      (<["__repr__" := MOther "function"]> ∅)))))
  end.

Lemma in_names_cons (n a : string) (l : list string) :
  in_names n (a :: l) = String.eqb n a || in_names n l.
Proof. reflexivity. Qed.

Lemma fold_readonly_prop_lookup (l : list string)
  (members : gmap string Member) (n : string) :
  fold_left readonly_prop_factory l members !! n
  = if in_names n l then Some (MProperty n) else members !! n.
Proof.
  revert members. induction l as [| a l IH]; intros members; [reflexivity |].
  cbn [fold_left]. rewrite IH, in_names_cons.
  destruct (in_names n l); [by rewrite orb_true_r |].
  rewrite orb_false_r. unfold readonly_prop_factory.
  destruct (String.eqb_spec n a) as [-> | Hne].
  - apply lookup_insert_eq.
  - apply lookup_insert_ne. congruence.
Qed.

(** X1.  A class body without [names] is refused with a [ValueError].  With
    a list [names], the class dictionary maps every listed name to its
    generated property, also where the body had defined a member of that
    name, and keeps every other member as it was. *)
Theorem ElementsMeta_new_properties (members : gmap string Member) :
  (members !! "names" = None ->
   exists msg, ElementsMeta_new members = Raise (ValueError msg)) /\
  (forall l, members !! "names" = Some (MNames l) ->
   exists cd, ElementsMeta_new members = Ok cd /\
     forall n, cd !! n
               = if in_names n l then Some (MProperty n) else members !! n).
Proof.
  unfold ElementsMeta_new. split.
  - intros ->. eauto.
  - intros l ->. eexists. split; [reflexivity |].
    intros n. apply fold_readonly_prop_lookup.
Qed.

(** A body that defines a method [P] besides listing it in [names]: the
    method is replaced by the property; [__init__] is kept. *)
Lemma ElementsMeta_new_properties_witness :
  exists cd,
    ElementsMeta_new (<["P" := MOther "function"]>
                        (class_body KeplerElements)) = Ok cd /\
    cd !! "P" = Some (MProperty "P") /\
    cd !! "__init__" = Some (MOther "function").
Proof.
  assert (E : <["P" := MOther "function"]> (class_body KeplerElements)
                !! "names" = Some (MNames (names KeplerElements)))
    by (vm_compute; reflexivity).
  destruct (proj2 (ElementsMeta_new_properties _) _ E) as (cd & Hcd & Hl).
  exists cd. split; [exact Hcd |].
  split; rewrite Hl; vm_compute; reflexivity.
Defined.


(** ** [KeplerElements(...)]: what is accepted, and which check speaks first *)

(** X3.  The constructor returns an instance exactly when the four required
    elements are given, [P] and a given [a] are not negative, [e] is a number
    with 0 <= e < 1 and 0 deg <= i <= 180 deg; the instance is then the one
    with all eight attributes and [units] assigned.  In every other case it
    raises, and nothing is returned. *)
Theorem KeplerElements_new_iff (kw : KeplerKwargs) (o : object) :
  KeplerElements_new kw = Ok o <->
  exists P e omega i Omega,
    accepted kw P e omega i Omega /\ o = constructed kw P e omega i Omega.
Proof.
  split.
  - apply KeplerElements_new_inv.
  - intros (P & e & omega & i & Omega & Hacc & ->).
    by apply KeplerElements_new_ok.
Qed.

(** X4.  A missing required element is reported before any value is looked
    at, and the message names the first one missing in the order [P],
    [omega], [i], [Omega]. *)
Theorem missing_required_named (self : object) (kw : KeplerKwargs) :
  (kw_P kw = None ->
   KeplerElements_init self kw = Raise (ValueError "You must specify P.")) /\
  (is_Some (kw_P kw) -> kw_omega kw = None ->
   KeplerElements_init self kw
   = Raise (ValueError "You must specify omega.")) /\
  (is_Some (kw_P kw) -> is_Some (kw_omega kw) -> kw_i kw = None ->
   KeplerElements_init self kw = Raise (ValueError "You must specify i.")) /\
  (is_Some (kw_P kw) -> is_Some (kw_omega kw) -> is_Some (kw_i kw) ->
   kw_Omega kw = None ->
   KeplerElements_init self kw
   = Raise (ValueError "You must specify Omega.")).
Proof.
  unfold KeplerElements_init, KeplerElements_body.
  repeat split.
  - intros ->. reflexivity.
  - intros [P ->] ->. reflexivity.
  - intros [P ->] [omega ->] ->. reflexivity.
  - intros [P ->] [omega ->] [i ->] ->. reflexivity.
Qed.

(** [KeplerElements(P=-1*u.day, e=2, omega=67*u.deg)]: [i] and [Omega] are
    missing, the period and the eccentricity are out of range; the error
    names [i]. *)
Lemma missing_required_named_witness :
  KeplerElements_new
    {| kw_P := Some (-1)%Q; kw_a := None; kw_e := Passed (Some 2%Q);
       kw_omega := Some 67%Q; kw_i := None; kw_Omega := None;
       kw_M0 := None; kw_t0 := None; kw_units := None |}
  = Raise (ValueError "You must specify i.").
Proof.
  apply (proj1 (proj2 (proj2 (missing_required_named _ _)))).
  - by eexists.
  - by eexists.
  - reflexivity.
Defined.

Record required_given (kw : KeplerKwargs) (P omega i Omega : Q) : Prop := {
  rq_P : kw_P kw = Some P;
  rq_omega : kw_omega kw = Some omega;
  rq_i : kw_i kw = Some i;
  rq_Omega : kw_Omega kw = Some Omega
}.

(** X5.  With the required elements given, a negative period is refused
    with the period message whatever the semi-major axis, the eccentricity
    and the inclination are: the period is checked first. *)
Theorem period_checked_first (self : object) (kw : KeplerKwargs)
  (P omega i Omega : Q) :
  required_given kw P omega i Omega ->
  (P < 0)%Q ->
  KeplerElements_init self kw
  = Raise (ValueError "Period `P` must be positive.").
Proof.
  intros [EP Eo Ei EO] HP.
  unfold KeplerElements_init, KeplerElements_body.
  rewrite EP, Eo, Ei, EO. cbn [required mbind result_bind].
  apply Qlt_bool_iff in HP. rewrite HP. reflexivity.
Qed.

(** [KeplerElements(P=-1*u.day, a=-1*u.au, e=2, omega=67*u.deg,
    i=200*u.deg, Omega=33*u.deg)] *)
Lemma period_checked_first_witness :
  KeplerElements_new
    {| kw_P := Some (-1)%Q; kw_a := Some (-1)%Q; kw_e := Passed (Some 2%Q);
       kw_omega := Some 67%Q; kw_i := Some 200%Q; kw_Omega := Some 33%Q;
       kw_M0 := None; kw_t0 := None; kw_units := None |}
  = Raise (ValueError "Period `P` must be positive.").
Proof.
  apply (period_checked_first _ _ (-1) 67 200 33).
  - by constructor.
  - q_closed.
Defined.

(** X6.  With the required elements given and the period not negative, a
    given semi-major axis is refused exactly when it is negative: a negative
    one raises the axis message whatever [e] and [i] are, and an axis of
    zero, like any positive one, is let through to the later checks. *)
Theorem semi_major_axis_checked (kw : KeplerKwargs)
  (P omega i Omega a : Q) :
  required_given kw P omega i Omega ->
  (0 <= P)%Q ->
  kw_a kw = Some a ->
  ((a < 0)%Q ->
   KeplerElements_new kw
   = Raise (ValueError "Semi-major axis `a` must be positive.")) /\
  ((0 <= a)%Q ->
   forall e, bind_keyword (Some 0%Q) (kw_e kw) = Some e ->
   (0 <= e)%Q /\ (e < 1)%Q -> (0 <= i)%Q /\ (i <= 180)%Q ->
   KeplerElements_new kw = Ok (constructed kw P e omega i Omega) /\
   getattr (constructed kw P e omega i Omega) "a" = Ok (VQuantity Length a)).
Proof.
  intros [EP Eo Ei EO] HP Ea. split.
  - intros Ha.
    unfold KeplerElements_new, KeplerElements_init, KeplerElements_body.
    rewrite EP, Eo, Ei, EO, Ea. cbn [required mbind result_bind].
    apply Qlt_bool_false in HP. apply Qlt_bool_iff in Ha.
    rewrite HP, Ha. reflexivity.
  - intros Ha e He Her Hir. split.
    + apply KeplerElements_new_ok. constructor; try assumption.
      intros a' Ea'. congruence.
    + destruct (constructed_getattr kw P e omega i Omega) as (_ & Hg & _).
      rewrite Hg, Ea. reflexivity.
Qed.

Definition with_a (a : Q) (kw : KeplerKwargs) : KeplerKwargs :=
  {| kw_P := kw_P kw; kw_a := Some a; kw_e := kw_e kw;
     kw_omega := kw_omega kw; kw_i := kw_i kw; kw_Omega := kw_Omega kw;
     kw_M0 := kw_M0 kw; kw_t0 := kw_t0 kw; kw_units := kw_units kw |}.

(** a = -1 au is refused also with e = 2; a = 0 au is accepted. *)
Lemma semi_major_axis_checked_witness :
  KeplerElements_new (with_a (-1) (year_orbit 2 21))
  = Raise (ValueError "Semi-major axis `a` must be positive.") /\
  KeplerElements_new (with_a 0 (year_orbit 0.5 21))
  = Ok (constructed (with_a 0 (year_orbit 0.5 21)) 365 0.5 67 21 33).
Proof.
  assert (HP : (0 <= 365)%Q) by q_closed.
  split.
  - assert (Ha : (-1 < 0)%Q) by q_closed.
    apply (proj1 (semi_major_axis_checked (with_a (-1) (year_orbit 2 21))
                    365 67 21 33 (-1) ltac:(by constructor) HP eq_refl) Ha).
  - assert (Ha : (0 <= 0)%Q) by q_closed.
    assert (He : (0 <= 0.5)%Q /\ (0.5 < 1)%Q) by (split; q_closed).
    assert (Hi : (0 <= 21)%Q /\ (21 <= 180)%Q) by (split; q_closed).
    apply (proj1 (proj2 (semi_major_axis_checked
                           (with_a 0 (year_orbit 0.5 21))
                           365 67 21 33 0 ltac:(by constructor) HP eq_refl)
                    Ha 0.5%Q eq_refl He Hi)).
Defined.

(** X7.  Passing [e=None] does not select the default: with the required
    elements given and [P], [a] not negative, the comparison [e < 0] raises
    [TypeError]. *)
Theorem explicit_None_eccentricity (self : object) (kw : KeplerKwargs)
  (P omega i Omega : Q) :
  scale_ok kw P omega i Omega ->
  kw_e kw = Passed None ->
  KeplerElements_init self kw
  = Raise (TypeError
      "'<' not supported between instances of 'NoneType' and 'int'").
Proof.
  intros Hsc He.
  destruct (scale_ok_checks _ _ _ _ _ Hsc) as [HP Ha].
  destruct Hsc as [EP Eo Ei EO _ _].
  unfold KeplerElements_init, KeplerElements_body.
  rewrite EP, Eo, Ei, EO, He. cbn [required mbind result_bind bind_keyword].
  rewrite HP, Ha. reflexivity.
Qed.

Lemma explicit_None_eccentricity_witness :
  KeplerElements_new
    {| kw_P := Some 365%Q; kw_a := None; kw_e := Passed None;
       kw_omega := Some 67%Q; kw_i := Some 21%Q; kw_Omega := Some 33%Q;
       kw_M0 := None; kw_t0 := None; kw_units := None |}
  = Raise (TypeError
      "'<' not supported between instances of 'NoneType' and 'int'").
Proof.
  apply (explicit_None_eccentricity _ _ 365 67 21 33); [| reflexivity].
  constructor; simpl; first [ q_closed | intros ? [=] ].
Defined.

(** ** Reading and assigning attributes of a constructed instance *)

(** X8.  On a constructed [KeplerElements] every name of [names] can be
    read, and assigning to any of them is refused with [AttributeError]:
    the elements are read-only. *)
Theorem names_readable_and_read_only (kw : KeplerKwargs) (o : object)
  (n : string) :
  KeplerElements_new kw = Ok o ->
  In n (names KeplerElements) ->
  (exists v, getattr o n = Ok v) /\
  (forall v, setattr o n v = Raise (AttributeError "can't set attribute")).
Proof.
  intros Ho Hn.
  apply KeplerElements_new_inv in Ho as (P & e & omega & i & Omega & _ & ->).
  destruct (constructed_getattr kw P e omega i Omega)
    as (HP & Ha & He & Ho & Hi & HO & HM & _).
  cbn [names In] in Hn.
  destruct Hn as [<- | [<- | [<- | [<- | [<- | [<- | [<- | []]]]]]]];
    (split; [eexists; eassumption | intros v; reflexivity]).
Qed.

Lemma names_readable_and_read_only_witness :
  (exists v, getattr (constructed (year_orbit 0.5 21) 365 0.5 67 21 33)
               "Omega" = Ok v) /\
  (forall v, setattr (constructed (year_orbit 0.5 21) 365 0.5 67 21 33)
               "Omega" v
             = Raise (AttributeError "can't set attribute")).
Proof.
  apply (names_readable_and_read_only (year_orbit 0.5 21)).
  - apply KeplerElements_new_ok. accept.
  - simpl. tauto.
Defined.

(** X9.  The epoch is not protected: [t0] is a plain attribute, so on a
    constructed [KeplerElements] an assignment to [t0] succeeds, the new
    value is read back, and every element of [names] reads as before. *)
Theorem t0_assignable (kw : KeplerKwargs) (o : object) (v : Value) :
  KeplerElements_new kw = Ok o ->
  exists o',
    setattr o "t0" v = Ok o' /\
    getattr o' "t0" = Ok v /\
    forall n, In n (names KeplerElements) -> getattr o' n = getattr o n.
Proof.
  intros Ho.
  apply KeplerElements_new_inv in Ho as (P & e & omega & i & Omega & _ & ->).
  eexists. split; [reflexivity |]. split.
  - unfold getattr, dict_get. cbn [ob_class ob_dict has_property].
    change (has_property KeplerElements "t0") with false. cbv iota.
    rewrite lookup_insert_eq. reflexivity.
  - intros n Hn. cbn [names In] in Hn.
    destruct Hn as [<- | [<- | [<- | [<- | [<- | [<- | [<- | []]]]]]]];
      reflexivity.
Qed.

Lemma t0_assignable_witness :
  exists o',
    setattr (constructed (year_orbit 0.5 21) 365 0.5 67 21 33) "t0"
      (VTime (TimeNum 59112 "mjd" "tcb")) = Ok o' /\
    getattr o' "t0" = Ok (VTime (TimeNum 59112 "mjd" "tcb")) /\
    forall n, In n (names KeplerElements) ->
      getattr o' n
      = getattr (constructed (year_orbit 0.5 21) 365 0.5 67 21 33) n.
Proof.
  apply (t0_assignable (year_orbit 0.5 21)).
  apply KeplerElements_new_ok. accept.
Defined.

(** X10.  The defaults of a constructed [KeplerElements]: without [a] the
    semi-major axis reads as the dimensionless 1, without [M0] the mean
    anomaly reads 0 deg, without [t0] the epoch is J2000, a number given as
    [t0] is read as MJD on the TCB scale and a [Time] is kept, and without
    [units] the unit system is [default_units]. *)
Theorem KeplerElements_defaults (kw : KeplerKwargs) (o : object) :
  KeplerElements_new kw = Ok o ->
  (kw_a kw = None -> getattr o "a" = Ok (VQuantity Dimensionless 1)) /\
  (kw_M0 kw = None -> getattr o "M0" = Ok (VQuantity AngleDim 0)) /\
  (kw_t0 kw = None -> getattr o "t0" = Ok (VTime (TimeNamed "J2000"))) /\
  (forall x, kw_t0 kw = Some (T0Num x) ->
             getattr o "t0" = Ok (VTime (TimeNum x "mjd" "tcb"))) /\
  (forall t, kw_t0 kw = Some (T0Time t) -> getattr o "t0" = Ok (VTime t)) /\
  (kw_units kw = None ->
   exists us, default_units KeplerElements = Some us /\
              getattr o "units" = Ok (VUnits us)).
Proof.
  intros Ho.
  apply KeplerElements_new_inv in Ho as (P & e & omega & i & Omega & _ & ->).
  destruct (constructed_getattr kw P e omega i Omega)
    as (_ & Ha & _ & _ & _ & _ & HM & Ht).
  repeat split.
  - intros E. rewrite Ha, E. reflexivity.
  - intros E. rewrite HM. unfold M0_of. rewrite E. reflexivity.
  - intros E. rewrite Ht. unfold t0_of. rewrite E. reflexivity.
  - intros x E. rewrite Ht. unfold t0_of. rewrite E. reflexivity.
  - intros t E. rewrite Ht. unfold t0_of. rewrite E. reflexivity.
  - intros E. eexists. split; [reflexivity |].
    unfold constructed. rewrite E. reflexivity.
Qed.

(** [KeplerElements(P=365*u.day, omega=67*u.deg, i=21*u.deg,
    Omega=33*u.deg)] *)
Lemma KeplerElements_defaults_witness :
  let o := constructed (with_P 365 zero_period) 365 0 67 21 33 in
  getattr o "a" = Ok (VQuantity Dimensionless 1) /\
  getattr o "M0" = Ok (VQuantity AngleDim 0) /\
  getattr o "t0" = Ok (VTime (TimeNamed "J2000")).
Proof.
  intros o.
  assert (Ho : KeplerElements_new (with_P 365 zero_period) = Ok o)
    by (apply KeplerElements_new_ok; accept).
  destruct (KeplerElements_defaults _ _ Ho) as (Ha & HM & Ht & _).
  split; [exact (Ha eq_refl) |]. split; [exact (HM eq_refl) |].
  exact (Ht eq_refl).
Defined.

(** ** Whole turns of the argument of pericenter *)

Lemma Qfloor_unique (y : Q) (n : Z) :
  (inject_Z n <= y)%Q -> (y < inject_Z (n + 1))%Q -> Qfloor y = n.
Proof.
  intros Hlo Hhi.
  pose proof (Qfloor_le y) as Flo. pose proof (Qlt_floor y) as Fhi.
  assert (H1 : (inject_Z (Qfloor y) < inject_Z (n + 1))%Q)
    by (eapply Qle_lt_trans; eassumption).
  assert (H2 : (inject_Z n < inject_Z (Qfloor y + 1))%Q)
    by (eapply Qle_lt_trans; eassumption).
  rewrite <- Zlt_Qlt in H1, H2. lia.
Qed.

Lemma wrap_at_360_periodic (x : Q) (k : Z) :
  (wrap_at 360 (x + inject_Z k * 360) == wrap_at 360 x)%Q.
Proof.
  unfold wrap_at.
  assert (E1 : ((x + inject_Z k * 360 - (360 - 360)) / 360
                == x / 360 + inject_Z k)%Q) by (field; discriminate).
  assert (E2 : ((x - (360 - 360)) / 360 == x / 360)%Q)
    by (field; discriminate).
  rewrite E1, E2.
  assert (F : Qfloor (x / 360 + inject_Z k) = (Qfloor (x / 360) + k)%Z).
  { pose proof (Qfloor_le (x / 360)) as Flo.
    pose proof (Qlt_floor (x / 360)) as Fhi.
    apply Qfloor_unique.
    - rewrite inject_Z_plus. lra.
    - rewrite !inject_Z_plus in *. lra. }
  rewrite F, inject_Z_plus. ring.
Qed.

Lemma wrap_at_360_id (x : Q) :
  (0 <= x)%Q -> (x < 360)%Q -> (wrap_at 360 x == x)%Q.
Proof.
  intros Hlo Hhi. unfold wrap_at.
  assert (E : ((x - (360 - 360)) / 360 == x / 360)%Q) by (field; discriminate).
  rewrite E.
  assert (F : Qfloor (x / 360) = 0%Z).
  { apply Qfloor_unique.
    - change (inject_Z 0) with 0%Q.
      apply Qle_shift_div_l; [reflexivity | lra].
    - change (inject_Z (0 + 1)) with 1%Q.
      apply Qlt_shift_div_r; [reflexivity | lra]. }
  rewrite F. change (inject_Z 0) with 0%Q. ring.
Qed.

Definition with_omega (omega : Q) (kw : KeplerKwargs) : KeplerKwargs :=
  {| kw_P := kw_P kw; kw_a := kw_a kw; kw_e := kw_e kw;
     kw_omega := Some omega; kw_i := kw_i kw; kw_Omega := kw_Omega kw;
     kw_M0 := kw_M0 kw; kw_t0 := kw_t0 kw; kw_units := kw_units kw |}.

(** X11.  The argument of pericenter counts modulo whole turns: if the
    constructor accepts keywords, it accepts them with [omega] moved by any
    number of turns, and [omega] reads the same on both instances; an
    [omega] already in [0 deg, 360 deg) reads as it was given. *)
Theorem omega_whole_turns (kw : KeplerKwargs) (o : object) (omega : Q)
  (k : Z) :
  KeplerElements_new kw = Ok o ->
  kw_omega kw = Some omega ->
  exists o' w w',
    KeplerElements_new (with_omega (omega + inject_Z k * 360) kw) = Ok o' /\
    getattr o "omega" = Ok (VQuantity AngleDim w) /\
    getattr o' "omega" = Ok (VQuantity AngleDim w') /\
    (w' == w)%Q /\
    ((0 <= omega)%Q /\ (omega < 360)%Q -> (w == omega)%Q).
Proof.
  intros Ho Hom.
  apply KeplerElements_new_inv in Ho as (P & e & omega0 & i & Omega & Hacc & ->).
  assert (omega0 = omega) as ->
    by (destruct Hacc as [_ E _ _ _ _ _ _ _]; congruence).
  set (x := (omega + inject_Z k * 360)%Q).
  assert (Hacc' : accepted (with_omega x kw) P e x i Omega)
    by (destruct Hacc; by constructor).
  exists (constructed (with_omega x kw) P e x i Omega),
         (wrap_at 360 omega), (wrap_at 360 x).
  split; [by apply KeplerElements_new_ok |].
  split; [reflexivity |]. split; [reflexivity |].
  split; [apply wrap_at_360_periodic |].
  intros [Hlo Hhi]. by apply wrap_at_360_id.
Qed.

(** omega = 10 deg and omega = 10 deg + 2 turns = 730 deg read the same. *)
Lemma omega_whole_turns_witness :
  exists o' w w',
    KeplerElements_new
      (with_omega (10 + inject_Z 2 * 360) (with_omega 10 wrapped_angles))
    = Ok o' /\
    getattr (constructed (with_omega 10 wrapped_angles) 365 0 10 21 (-30))
      "omega" = Ok (VQuantity AngleDim w) /\
    getattr o' "omega" = Ok (VQuantity AngleDim w') /\
    (w' == w)%Q /\
    ((0 <= 10)%Q /\ (10 < 360)%Q -> (w == 10)%Q).
Proof.
  apply (omega_whole_turns (with_omega 10 wrapped_angles)); [| reflexivity].
  apply KeplerElements_new_ok. accept.
Defined.

(** ** The base step [OrbitalElements.__init__] *)

(** X12.  For a class with [default_units], the base step succeeds when
    every name of [names] has its backing attribute, and then only assigns
    [units] (the default, the [UnitSystem] given, or one made of the units
    given); it raises [AttributeError] when some backing attribute is
    missing.  On [OrbitalElements] itself, which has no [default_units],
    leaving out [units] raises [AttributeError]. *)
Theorem OrbitalElements_init_contract (self : object)
  (units : option units_arg) :
  (forall us0, default_units (ob_class self) = Some us0 ->
   Forall (fun n => is_Some (ob_dict self !! ("_" ++ n)))
     (names (ob_class self)) ->
   OrbitalElements_init self units
   = Ok (mkObject (ob_class self)
           (<["units" := VUnits match units with
                                | None => us0
                                | Some (UnitsObj us) => us
                                | Some (UnitsIter l) => mkUnitSystem l
                                end]> (ob_dict self)))) /\
  (forall us0, default_units (ob_class self) = Some us0 ->
   Exists (fun n => ob_dict self !! ("_" ++ n) = None)
     (names (ob_class self)) ->
   OrbitalElements_init self units
   = Raise (AttributeError "Invalid class definition!")) /\
  (ob_class self = OrbitalElements ->
   OrbitalElements_init self None
   = Raise (no_attribute self "default_units")).
Proof.
  split; [| split].
  - intros us0 Hd Hall. unfold OrbitalElements_init. rewrite Hd.
    destruct units as [[us | l] |]; unfold mbind, result_bind, setattr;
      rewrite units_not_property; cbn [ob_class ob_dict];
      (rewrite check_names_present; [reflexivity |]);
      cbn [ob_dict]; (eapply Forall_impl; [exact Hall |]);
      intros n [v Hv]; cbn beta;
      (rewrite lookup_insert_ne by discriminate); eauto.
  - intros us0 Hd Hex. unfold OrbitalElements_init. rewrite Hd.
    apply Exists_exists in Hex as (n & Hin & Hn).
    apply list_elem_of_In in Hin.
    destruct units as [[us | l] |]; unfold mbind, result_bind, setattr;
      rewrite units_not_property; cbn [ob_class ob_dict];
      (rewrite (check_names_missing _ _ n);
       [reflexivity | exact Hin |
        apply hasattr_false; cbn [ob_dict];
        rewrite lookup_insert_ne by discriminate; exact Hn]).
  - intros Hc. unfold OrbitalElements_init. rewrite Hc. reflexivity.
Qed.

(** After the assignments of [KeplerElements.__init__] a [KeplerElements]
    instance passes the base step. *)
Lemma OrbitalElements_init_contract_witness :
  exists us,
    OrbitalElements_init
      (stored (new_object KeplerElements) None 365 0 67 21 33 0
         (TimeNamed "J2000")) None
    = Ok (mkObject KeplerElements
            (<["units" := VUnits us]>
               (ob_dict (stored (new_object KeplerElements) None 365 0 67 21
                           33 0 (TimeNamed "J2000"))))).
Proof.
  eexists.
  apply (proj1 (OrbitalElements_init_contract
                  (stored (new_object KeplerElements) None 365 0 67 21 33 0
                     (TimeNamed "J2000")) None) _ eq_refl).
  apply (stored_names_present (new_object KeplerElements)).
Defined.

(** ** [TwoBodyKeplerElements.__init__] on any instance *)

Lemma OrbitalElements_init_class (self o : object) (units : option units_arg) :
  OrbitalElements_init self units = Ok o -> ob_class o = ob_class self.
Proof.
  unfold OrbitalElements_init.
  destruct (match units with
            | None =>
                match default_units (ob_class self) with
                | Some us => Ok us
                | None => Raise (no_attribute self "default_units")
                end
            | Some (UnitsObj us) => Ok us
            | Some (UnitsIter l) => Ok (mkUnitSystem l)
            end) as [us | x]; [| discriminate].
  unfold mbind, result_bind, setattr. rewrite units_not_property.
  cbn [ob_class].
  destruct (check_names _ _) as [[] | x]; [| discriminate].
  intros [= <-]. reflexivity.
Qed.

Lemma KeplerElements_init_class (self o : object) (kw : KeplerKwargs) :
  KeplerElements_init self kw = Ok o -> ob_class o = ob_class self.
Proof.
  unfold KeplerElements_init.
  destruct (KeplerElements_body self kw) as [s | x] eqn:Hb; [| discriminate].
  apply KeplerElements_body_inv in Hb as (P & e & omega & i & Omega & _ & ->).
  cbn [mbind result_bind]. intros H.
  apply OrbitalElements_init_class in H. exact H.
Qed.

Section TwoBodyInit.

Variable a_m_to_P : option Q -> Q -> result Q.
Variable P_m_to_a : Q -> Q -> result Q.

(** X13.  Without [m1] or without [m2] the constructor raises the
    [ValueError] about the masses, whatever else is passed and before the
    third-law helpers are called. *)
Theorem masses_required (self : object) (kw : TwoBodyKwargs) :
  tb_m1 kw = None \/ tb_m2 kw = None ->
  TwoBodyKeplerElements_init a_m_to_P P_m_to_a self kw
  = Raise (ValueError "You must specify m1 and m2.").
Proof.
  unfold TwoBodyKeplerElements_init.
  intros [-> | ->]; [reflexivity |].
  destruct (tb_m1 kw); reflexivity.
Qed.

(** X14.  [TwoBodyKeplerElements.__init__] returns on no instance of the
    class, in whatever state the instance is: where the inherited
    constructor gets through, as it does on an instance that already holds
    [_m1] and [_m2], the assignment [self.m1 = m1] is refused because [m1]
    is one of the generated read-only properties. *)
Theorem two_body_init_never_returns (self : object) (kw : TwoBodyKwargs) :
  ob_class self = TwoBodyKeplerElements ->
  (exists x, TwoBodyKeplerElements_init a_m_to_P P_m_to_a self kw = Raise x) /\
  (forall m1 m2 P a s,
     tb_m1 kw = Some m1 -> tb_m2 kw = Some m2 ->
     match tb_P kw with
     | None => a_m_to_P (tb_a kw) (m1 + m2)%Q
     | Some P => Ok P
     end = Ok P ->
     match tb_a kw with
     | None => P_m_to_a P (m1 + m2)%Q
     | Some a => Ok a
     end = Ok a ->
     KeplerElements_init self (super_kwargs kw P a) = Ok s ->
     TwoBodyKeplerElements_init a_m_to_P P_m_to_a self kw
     = Raise (AttributeError "can't set attribute")).
Proof.
  intros Hc.
  assert (Hm1 : forall P a s m1,
            KeplerElements_init self (super_kwargs kw P a) = Ok s ->
            setattr s "m1" (VQuantity Mass m1)
            = Raise (AttributeError "can't set attribute")).
  { intros P a s m1 Hs. apply KeplerElements_init_class in Hs.
    unfold setattr. rewrite Hs, Hc. reflexivity. }
  split.
  - unfold TwoBodyKeplerElements_init.
    destruct (tb_m1 kw) as [m1 |], (tb_m2 kw) as [m2 |]; eauto.
    destruct (match tb_P kw with
              | None => a_m_to_P (tb_a kw) (m1 + m2)%Q
              | Some P => Ok P
              end) as [P | x]; [| eauto].
    cbn [mbind result_bind].
    destruct (match tb_a kw with
              | None => P_m_to_a P (m1 + m2)%Q
              | Some a => Ok a
              end) as [a | x]; [| eauto].
    cbn [mbind result_bind].
    destruct (KeplerElements_init self (super_kwargs kw P a)) as [s | x]
      eqn:Hs; [| eauto].
    cbn [mbind result_bind]. rewrite (Hm1 P a s m1 Hs). eauto.
  - intros m1 m2 P a s H1 H2 HP Ha Hs. unfold TwoBodyKeplerElements_init.
    rewrite H1, H2, HP. cbn [mbind result_bind].
    rewrite Ha. cbn [mbind result_bind]. rewrite Hs.
    cbn [mbind result_bind]. rewrite (Hm1 P a s m1 Hs). reflexivity.
Qed.

(** X15.  When the caller gives both [P] and [a], neither third-law helper
    is consulted: the two values are passed on as they are, with no check
    that they agree, and the outcome is the same for any helpers. *)
Theorem helpers_not_consulted (self : object) (kw : TwoBodyKwargs)
  (f : option Q -> Q -> result Q) (g : Q -> Q -> result Q) :
  is_Some (tb_P kw) -> is_Some (tb_a kw) ->
  TwoBodyKeplerElements_init f g self kw
  = TwoBodyKeplerElements_init a_m_to_P P_m_to_a self kw.
Proof.
  intros [P HP] [a Ha]. unfold TwoBodyKeplerElements_init.
  rewrite HP, Ha. reflexivity.
Qed.

End TwoBodyInit.

(** [TwoBodyKeplerElements(a=1.5*u.au, e=0.5, omega=67*u.deg, i=21*u.deg,
    Omega=33*u.deg)], without masses. *)
Lemma masses_required_witness :
  TwoBodyKeplerElements_new (fun _ _ => Ok 400%Q) (fun _ _ => Ok 1.5%Q)
    {| tb_a := Some 1.5%Q; tb_P := None; tb_m1 := None; tb_m2 := None;
       tb_e := Passed (Some 0.5%Q);
       tb_omega := Some 67%Q; tb_i := Some 21%Q; tb_Omega := Some 33%Q;
       tb_M0 := None; tb_t0 := None; tb_units := None |}
  = Raise (ValueError "You must specify m1 and m2.").
Proof.
  apply (masses_required _ _ (new_object TwoBodyKeplerElements)).
  left. reflexivity.
Defined.

(** An instance that already holds [_m1] and [_m2]: the inherited
    constructor gets through and the assignment of [m1] is refused. *)
Lemma two_body_init_never_returns_witness :
  TwoBodyKeplerElements_init (fun _ _ => Ok 400%Q) (fun _ _ => Ok 1.5%Q)
    (mkObject TwoBodyKeplerElements
       (<["_m1" := VQuantity Mass 1]> (<["_m2" := VQuantity Mass 2]> ∅)))
    api_scenario
  = Raise (AttributeError "can't set attribute").
Proof.
  set (self := mkObject TwoBodyKeplerElements
                 (<["_m1" := VQuantity Mass 1]>
                    (<["_m2" := VQuantity Mass 2]> ∅))).
  destruct (KeplerElements_init self (super_kwargs api_scenario 400 1.5))
    as [s | x] eqn:Hs; [| vm_compute in Hs; discriminate Hs].
  apply (proj2 (two_body_init_never_returns
                  (fun _ _ => Ok 400%Q) (fun _ _ => Ok 1.5%Q)
                  self api_scenario eq_refl) 1%Q 2%Q 400%Q 1.5%Q s);
    [reflexivity | reflexivity | reflexivity | reflexivity | exact Hs].
Defined.

(** Both [P] and [a] given, in disagreement with the third law or not. *)
Lemma helpers_not_consulted_witness :
  TwoBodyKeplerElements_new (fun _ _ => Raise (ValueError "unused"))
    (fun _ _ => Raise (ValueError "unused")) two_body_without_e
  = TwoBodyKeplerElements_new (fun _ _ => Ok 400%Q) (fun _ _ => Ok 1.5%Q)
      two_body_without_e.
Proof.
  apply (helpers_not_consulted (fun _ _ => Ok 400%Q) (fun _ _ => Ok 1.5%Q)
           (new_object TwoBodyKeplerElements) two_body_without_e);
    by eexists.
Defined.

(** ** [get_component] on an instance that holds its backing values *)

(** The attributes that [get_component] reads, as found in [__dict__].  No
    constructor call leaves an instance in this state; it is reached by
    filling [__dict__] directly, as [filled_by_hand] does. *)
Record two_body_state (self : object) (us : UnitSystem)
  (m1 m2 m_tot a P e omega i Omega M0 : Q) (t0 : Time) : Prop := {
  st_class : ob_class self = TwoBodyKeplerElements;
  st_units : ob_dict self !! "units" = Some (VUnits us);
  st_m1 : ob_dict self !! "_m1" = Some (VQuantity Mass m1);
  st_m2 : ob_dict self !! "_m2" = Some (VQuantity Mass m2);
  st_m_tot : ob_dict self !! "m_tot" = Some (VQuantity Mass m_tot);
  st_a : ob_dict self !! "_a" = Some (VQuantity Length a);
  st_P : ob_dict self !! "_P" = Some (VQuantity Duration P);
  st_e : ob_dict self !! "_e" = Some (VQuantity Dimensionless e);
  st_omega : ob_dict self !! "_omega" = Some (VQuantity AngleDim omega);
  st_i : ob_dict self !! "_i" = Some (VQuantity AngleDim i);
  st_Omega : ob_dict self !! "_Omega" = Some (VQuantity AngleDim Omega);
  st_M0 : ob_dict self !! "_M0" = Some (VQuantity AngleDim M0);
  st_t0 : ob_dict self !! "t0" = Some (VTime t0)
}.

(** The keywords of the call [KeplerElements(a=a, P=self.P, ...)] that ends
    [get_component]. *)
Definition component_kwargs (a P e omega i Omega M0 : Q) (t0 : Time)
  : KeplerKwargs :=
  {| kw_a := Some a; kw_P := Some P; kw_e := Passed (Some e);
     kw_omega := Some omega; kw_i := Some i; kw_Omega := Some Omega;
     kw_M0 := Some M0; kw_t0 := Some (T0Time t0); kw_units := None |}.

Lemma getattr_property (self : object) (us : UnitSystem) (n : string)
  (v : Value) :
  has_property (ob_class self) n = true ->
  ob_dict self !! "units" = Some (VUnits us) ->
  ob_dict self !! String "_" n = Some v ->
  getattr self n = Ok v.
Proof.
  intros Hp Hu Hv. unfold getattr, getter, dict_get. rewrite Hp, Hu.
  cbn [mbind result_bind].
  change ("_" ++ n) with (String "_" n). rewrite Hv. reflexivity.
Qed.

Lemma getattr_plain (self : object) (n : string) (v : Value) :
  has_property (ob_class self) n = false ->
  ob_dict self !! n = Some v ->
  getattr self n = Ok v.
Proof.
  intros Hp Hv. unfold getattr, dict_get. rewrite Hp, Hv. reflexivity.
Qed.

Lemma get_component_eq (self : object) (us : UnitSystem)
  (m1 m2 m_tot a P e omega i Omega M0 : Q) (t0 : Time) (num : PyVal) :
  two_body_state self us m1 m2 m_tot a P e omega i Omega M0 t0 ->
  get_component self num
  = if String.eqb (py_str num) "1" then
      KeplerElements_new
        (component_kwargs (m2 / m_tot * a) P e omega i Omega M0 t0)
    else if String.eqb (py_str num) "2" then
      KeplerElements_new
        (component_kwargs (m1 / m_tot * a) P e (omega + pi_radian) i Omega
           M0 t0)
    else
      Raise (ValueError
        ("Invalid input '" ++ py_str num ++ "' - must be '1' or '2'")).
Proof.
  intros [Hc Hu H1 H2 Ht Ha HP He Ho Hi HO HM H0].
  assert (G1 : getattr self "m1" = Ok (VQuantity Mass m1))
    by (apply (getattr_property _ us); [rewrite Hc | |]; done).
  assert (G2 : getattr self "m2" = Ok (VQuantity Mass m2))
    by (apply (getattr_property _ us); [rewrite Hc | |]; done).
  assert (Gt : getattr self "m_tot" = Ok (VQuantity Mass m_tot))
    by (apply getattr_plain; [rewrite Hc |]; done).
  assert (Ga : getattr self "a" = Ok (VQuantity Length a))
    by (apply (getattr_property _ us); [rewrite Hc | |]; done).
  assert (GP : getattr self "P" = Ok (VQuantity Duration P))
    by (apply (getattr_property _ us); [rewrite Hc | |]; done).
  assert (Ge : getattr self "e" = Ok (VQuantity Dimensionless e))
    by (apply (getattr_property _ us); [rewrite Hc | |]; done).
  assert (Go : getattr self "omega" = Ok (VQuantity AngleDim omega))
    by (apply (getattr_property _ us); [rewrite Hc | |]; done).
  assert (Gi : getattr self "i" = Ok (VQuantity AngleDim i))
    by (apply (getattr_property _ us); [rewrite Hc | |]; done).
  assert (GO : getattr self "Omega" = Ok (VQuantity AngleDim Omega))
    by (apply (getattr_property _ us); [rewrite Hc | |]; done).
  assert (GM : getattr self "M0" = Ok (VQuantity AngleDim M0))
    by (apply (getattr_property _ us); [rewrite Hc | |]; done).
  assert (G0 : getattr self "t0" = Ok (VTime t0))
    by (apply getattr_plain; [rewrite Hc |]; done).
  unfold get_component.
  rewrite G1, G2, Gt, Ga, GP, Ge, Go, Gi, GO, GM, G0.
  destruct (String.eqb (py_str num) "1");
    [| destruct (String.eqb (py_str num) "2")]; reflexivity.
Qed.

Lemma filled_by_hand_state :
  two_body_state filled_by_hand
    (mkUnitSystem ["au"; "d"; "solMass"; "deg"; "km / s"])
    1 2 3 1.5 365 0.5 67 21 67 53 (TimeNum 59112.1423 "mjd" "tcb").
Proof. constructor; vm_compute; reflexivity. Qed.

(** X16.  [get_component] needs the backing mass of the other body: on a
    two-body instance without [_m2] the selector ['1'] raises
    [AttributeError], and without [_m1] the selector ['2'] does. *)
Theorem get_component_needs_masses (self : object) :
  ob_class self = TwoBodyKeplerElements ->
  (ob_dict self !! "_m2" = None ->
   exists msg, get_component self (PyStr "1") = Raise (AttributeError msg)) /\
  (ob_dict self !! "_m1" = None ->
   exists msg, get_component self (PyStr "2") = Raise (AttributeError msg)).
Proof.
  intros Hc.
  assert (G : forall n, has_property TwoBodyKeplerElements n = true ->
                ob_dict self !! String "_" n = None ->
                exists msg, getattr self n = Raise (AttributeError msg)).
  { intros n Hp Hn. unfold getattr, getter, dict_get. rewrite Hc, Hp.
    destruct (ob_dict self !! "units") as [[| | us] |];
      cbn [mbind result_bind]; unfold no_attribute; eauto.
    change ("_" ++ n) with (String "_" n). rewrite Hn.
    cbn [mbind result_bind]. eauto. }
  split; intros Hn; unfold get_component; cbn [py_str String.eqb Ascii.eqb
    Bool.eqb].
  - destruct (G "m2" eq_refl Hn) as [msg ->]. eauto.
  - destruct (G "m1" eq_refl Hn) as [msg ->]. eauto.
Qed.

(** The instance that the inherited constructor leaves before the base step,
    on the scenario of the API script. *)
Lemma get_component_needs_masses_witness :
  exists msg,
    get_component
      (stored (new_object TwoBodyKeplerElements) (Some 1.5%Q) 400 0.5 67 21
         67 53 (TimeNum 59112.1423 "mjd" "tcb")) (PyStr "1")
    = Raise (AttributeError msg).
Proof.
  apply (proj1 (get_component_needs_masses
                  (stored (new_object TwoBodyKeplerElements) (Some 1.5%Q) 400
                     0.5 67 21 67 53 (TimeNum 59112.1423 "mjd" "tcb"))
                  eq_refl)).
  vm_compute. reflexivity.
Defined.

(** X17.  A component returned by [get_component] is a plain
    [KeplerElements] in the default unit system, whatever the unit system of
    the two-body instance is; it reads the same [P], [e], [i], [M0] and [t0]
    as are stored on that instance, and its [Omega] is the stored one
    wrapped at 360 degrees. *)
Theorem component_structure (self c : object) (us : UnitSystem)
  (m1 m2 m_tot a P e omega i Omega M0 : Q) (t0 : Time) (num : PyVal) :
  two_body_state self us m1 m2 m_tot a P e omega i Omega M0 t0 ->
  get_component self num = Ok c ->
  ob_class c = KeplerElements /\
  getattr c "units"
  = Ok (VUnits (mkUnitSystem ["au"; "d"; "solMass"; "deg"; "km / s"])) /\
  getattr c "P" = Ok (VQuantity Duration P) /\
  getattr c "e" = Ok (VQuantity Dimensionless e) /\
  getattr c "i" = Ok (VQuantity AngleDim i) /\
  getattr c "Omega" = Ok (VQuantity AngleDim (wrap_at 360 Omega)) /\
  getattr c "M0" = Ok (VQuantity AngleDim M0) /\
  getattr c "t0" = Ok (VTime t0).
Proof.
  intros Hst Hc. rewrite (get_component_eq _ _ _ _ _ _ _ _ _ _ _ _ _ _ Hst) in Hc.
  destruct (String.eqb (py_str num) "1");
    [| destruct (String.eqb (py_str num) "2"); [| discriminate]];
    apply KeplerElements_new_inv in Hc
      as (P' & e' & omega' & i' & Omega' & Hacc & ->);
    destruct Hacc as [EP _ Ei EO Ee _ _ _ _];
    cbn in EP, Ei, EO, Ee;
    injection EP as <-; injection Ei as <-; injection EO as <-;
    injection Ee as <-;
    repeat split.
Qed.

Lemma component_structure_witness :
  exists c,
    get_component filled_by_hand (PyStr "2") = Ok c /\
    ob_class c = KeplerElements /\
    getattr c "P" = Ok (VQuantity Duration 365) /\
    getattr c "t0" = Ok (VTime (TimeNum 59112.1423 "mjd" "tcb")).
Proof.
  destruct (get_component filled_by_hand (PyStr "2")) as [c | x] eqn:Hc;
    [| vm_compute in Hc; discriminate Hc].
  exists c. split; [reflexivity |].
  destruct (component_structure _ _ _ _ _ _ _ _ _ _ _ _ _ _ _
              filled_by_hand_state Hc)
    as (H1 & _ & H3 & _ & _ & _ & _ & H8).
  split; [exact H1 |]. split; [exact H3 | exact H8].
Defined.

(** X18.  When both components exist and [m1], [m_tot] and [a] are not
    zero, the semi-major axes of the components are [m2 / m_tot * a] and
    [m1 / m_tot * a], and their ratio is [m2 / m1]. *)
Theorem component_axes_ratio (self c1 c2 : object) (us : UnitSystem)
  (m1 m2 m_tot a P e omega i Omega M0 : Q) (t0 : Time) :
  two_body_state self us m1 m2 m_tot a P e omega i Omega M0 t0 ->
  get_component self (PyStr "1") = Ok c1 ->
  get_component self (PyStr "2") = Ok c2 ->
  ~ (m1 == 0)%Q -> ~ (m_tot == 0)%Q -> ~ (a == 0)%Q ->
  getattr c1 "a" = Ok (VQuantity Length (m2 / m_tot * a)) /\
  getattr c2 "a" = Ok (VQuantity Length (m1 / m_tot * a)) /\
  ((m2 / m_tot * a) / (m1 / m_tot * a) == m2 / m1)%Q.
Proof.
  intros Hst H1 H2 Hm1 Hmt Ha.
  rewrite (get_component_eq _ _ _ _ _ _ _ _ _ _ _ _ _ (PyStr "1") Hst) in H1.
  rewrite (get_component_eq _ _ _ _ _ _ _ _ _ _ _ _ _ (PyStr "2") Hst) in H2.
  cbn [py_str String.eqb Ascii.eqb Bool.eqb] in H1, H2.
  apply KeplerElements_new_inv in H1 as (? & ? & ? & ? & ? & _ & ->).
  apply KeplerElements_new_inv in H2 as (? & ? & ? & ? & ? & _ & ->).
  split; [reflexivity |]. split; [reflexivity |].
  field. auto.
Qed.

Lemma component_axes_ratio_witness :
  exists c1 c2,
    get_component filled_by_hand (PyStr "1") = Ok c1 /\
    get_component filled_by_hand (PyStr "2") = Ok c2 /\
    getattr c1 "a" = Ok (VQuantity Length (2 / 3 * 1.5)) /\
    getattr c2 "a" = Ok (VQuantity Length (1 / 3 * 1.5)) /\
    ((2 / 3 * 1.5) / (1 / 3 * 1.5) == 2 / 1)%Q.
Proof.
  destruct (get_component filled_by_hand (PyStr "1")) as [c1 | x] eqn:H1;
    [| vm_compute in H1; discriminate H1].
  destruct (get_component filled_by_hand (PyStr "2")) as [c2 | x] eqn:H2;
    [| vm_compute in H2; discriminate H2].
  exists c1, c2. split; [reflexivity |]. split; [reflexivity |].
  apply (component_axes_ratio _ _ _ _ _ _ _ _ _ _ _ _ _ _ _
           filled_by_hand_state H1 H2); discriminate.
Defined.

(** X19.  When both components exist, their arguments of pericenter are
    the stored [omega] and [omega] plus half a turn, each wrapped at 360
    degrees: they differ by 180 degrees up to whole turns. *)
Theorem component_pericenters_opposite (self c1 c2 : object)
  (us : UnitSystem) (m1 m2 m_tot a P e omega i Omega M0 : Q) (t0 : Time) :
  two_body_state self us m1 m2 m_tot a P e omega i Omega M0 t0 ->
  get_component self (PyStr "1") = Ok c1 ->
  get_component self (PyStr "2") = Ok c2 ->
  exists (w1 w2 : Q) (k : Z),
    getattr c1 "omega" = Ok (VQuantity AngleDim w1) /\
    getattr c2 "omega" = Ok (VQuantity AngleDim w2) /\
    (w1 == wrap_at 360 omega)%Q /\
    (w2 - w1 == 180 + inject_Z k * 360)%Q.
Proof.
  intros Hst H1 H2.
  rewrite (get_component_eq _ _ _ _ _ _ _ _ _ _ _ _ _ (PyStr "1") Hst) in H1.
  rewrite (get_component_eq _ _ _ _ _ _ _ _ _ _ _ _ _ (PyStr "2") Hst) in H2.
  cbn [py_str String.eqb Ascii.eqb Bool.eqb] in H1, H2.
  apply KeplerElements_new_inv in H1
    as (? & ? & o1 & ? & ? & [_ E1 _ _ _ _ _ _ _] & ->).
  apply KeplerElements_new_inv in H2
    as (? & ? & o2 & ? & ? & [_ E2 _ _ _ _ _ _ _] & ->).
  cbn in E1, E2. injection E1 as <-. injection E2 as <-.
  destruct (wrap_at_360_turns omega) as [k1 Hk1].
  destruct (wrap_at_360_turns (omega + pi_radian)) as [k2 Hk2].
  exists (wrap_at 360 omega), (wrap_at 360 (omega + pi_radian)), (k1 - k2)%Z.
  split; [reflexivity |]. split; [reflexivity |].
  split; [reflexivity |].
  rewrite Hk1, Hk2. unfold pi_radian, Z.sub.
  rewrite inject_Z_plus, inject_Z_opp. ring.
Qed.

Lemma component_pericenters_opposite_witness :
  exists (c1 c2 : object) (w1 w2 : Q) (k : Z),
    get_component filled_by_hand (PyStr "1") = Ok c1 /\
    get_component filled_by_hand (PyStr "2") = Ok c2 /\
    getattr c1 "omega" = Ok (VQuantity AngleDim w1) /\
    getattr c2 "omega" = Ok (VQuantity AngleDim w2) /\
    (w2 - w1 == 180 + inject_Z k * 360)%Q.
Proof.
  destruct (get_component filled_by_hand (PyStr "1")) as [c1 | x] eqn:H1;
    [| vm_compute in H1; discriminate H1].
  destruct (get_component filled_by_hand (PyStr "2")) as [c2 | x] eqn:H2;
    [| vm_compute in H2; discriminate H2].
  destruct (component_pericenters_opposite _ _ _ _ _ _ _ _ _ _ _ _ _ _ _
              filled_by_hand_state H1 H2)
    as (w1 & w2 & k & G1 & G2 & _ & Hd).
  exists c1, c2, w1, w2, k. repeat split; assumption.
Defined.
